(** * Utilization tracker: the time-accounting core of [Timesheet.py]

    A shallow embedding of the data model ([DayData], [TaskRowData]), of the
    timer operations of [TimesheetApp] ([_toggle_timer], [_stop_timer]), of the
    aggregation code ([_add_total_row], [_update_week_total]) and of the JSON
    store ([_load_data], [_save_data]), followed by the properties of the
    specification that were checked against them.

    Python values are kept dynamic where the program keeps them so (what
    [json.load] returns is stored without a check), a method of the
    application is a function from the state to an outcome, a value or a
    raised exception, and a new state, and the Qt widgets are left out. *)

From Stdlib Require Import ZArith QArith String Ascii List Lia.
From stdpp Require Import base gmap strings list fin_maps option.

#[local] Set Warnings "-register-all".
Local Open Scope Z_scope.

(** ** Python values, exceptions *)

Module Py.

(** The values the program moves between memory and the JSON file. A [str]
    is a sequence of characters (an [ascii] stands for one character: text is
    copied, compared and iterated here, never decoded). A [dict] keeps its
    insertion order; its keys are strings, as every dict of this program has
    them. *)
Inductive pyval : Type :=
| PNone
| PBool (b : bool)
| PInt (n : Z)
| PFloat (repr : string)
| PStr (s : string)
| PList (items : list pyval)
| PTuple (items : list pyval)
| PDict (kvs : list (string * pyval)).

(** The exceptions the modelled code can raise. All derive from [Exception]. *)
Inductive exn : Type :=
| KeyError | TypeError | AttributeError | ValueError | IndexError
| JSONDecodeError | OSError.

(** The outcome of a Python expression: a value or a raised exception. *)
Inductive res (A : Type) : Type :=
| Ok (a : A)
| Raise (e : exn).
Arguments Ok {A} a.
Arguments Raise {A} e.

#[export] Instance res_ret : MRet res := fun A a => Ok a.
#[export] Instance res_bind : MBind res := fun A B f m =>
  match m with Ok a => f a | Raise e => Raise e end.
#[export] Instance res_fmap : FMap res := fun A B f m =>
  match m with Ok a => Ok (f a) | Raise e => Raise e end.

Definition is_Ok {A} (m : res A) : Prop := exists a, m = Ok a.

(** [for x in xs: acc = body(acc, x)], stopping at the first exception. *)
Fixpoint for_each {A B} (body : B -> A -> res B) (acc : B) (xs : list A) : res B :=
  match xs with
  | [] => Ok acc
  | x :: xs' => acc' ← body acc x; for_each body acc' xs'
  end.

(** [[f(x) for x in xs]]. *)
Fixpoint list_comp {A B} (f : A -> res B) (xs : list A) : res (list B) :=
  match xs with
  | [] => Ok []
  | x :: xs' => y ← f x; ys ← list_comp f xs'; Ok (y :: ys)
  end.

Fixpoint assoc (k : string) (kvs : list (string * pyval)) : option pyval :=
  match kvs with
  | [] => None
  | (k', v) :: rest => if String.eqb k k' then Some v else assoc k rest
  end.

(** [d.get(k, dflt)]: a method of [dict] only. *)
Definition get (d : pyval) (k : string) (dflt : pyval) : res pyval :=
  match d with
  | PDict kvs => Ok (default dflt (assoc k kvs))
  | _ => Raise AttributeError
  end.

(** [d[k]] with a string key [k]. *)
Definition getitem (d : pyval) (k : string) : res pyval :=
  match d with
  | PDict kvs => match assoc k kvs with Some v => Ok v | None => Raise KeyError end
  | _ => Raise TypeError
  end.

Definition chars (s : string) : list pyval :=
  map (fun c => PStr (String c EmptyString)) (list_ascii_of_string s).

(** The items [for x in v] visits. *)
Definition iter (v : pyval) : res (list pyval) :=
  match v with
  | PList items | PTuple items => Ok items
  | PStr s => Ok (chars s)
  | PDict kvs => Ok (map (fun kv => PStr (fst kv)) kvs)
  | _ => Raise TypeError
  end.

(** [a, b = v]. *)
Definition unpack2 (v : pyval) : res (pyval * pyval) :=
  items ← iter v;
  match items with
  | [a; b] => Ok (a, b)
  | _ => Raise ValueError
  end.

(** [bool(v)], the test of [if v] and of [v if v else ...]. A float is
    named by its [repr], and the two zeros are written [0.0] and [-0.0]. *)
Definition truthy (v : pyval) : bool :=
  match v with
  | PNone => false
  | PBool b => b
  | PInt n => negb (n =? 0)
  | PFloat r => negb (String.eqb r "0.0" || String.eqb r "-0.0")
  | PStr s => negb (String.eqb s "")
  | PList items | PTuple items => match items with [] => false | _ => true end
  | PDict kvs => match kvs with [] => false | _ => true end
  end.

(** What [json.load] reads back after [json.dump] wrote [v]: arrays come back
    as lists, so a tuple becomes a list; the rest is unchanged. *)
Fixpoint json_roundtrip (v : pyval) : pyval :=
  match v with
  | PList items => PList (map json_roundtrip items)
  | PTuple items => PList (map json_roundtrip items)
  | PDict kvs => PDict (map (fun kv => (fst kv, json_roundtrip (snd kv))) kvs)
  | _ => v
  end.

End Py.
Import Py.

(** ** [datetime]: naive dates and instants *)

Module Datetime.

Record date : Type := mkdate { dyear : Z; dmonth : Z; dday : Z }.

Record datetime : Type := mkdatetime {
  year : Z; month : Z; day : Z;
  hour : Z; minute : Z; second : Z; microsecond : Z }.

Definition date_of (t : datetime) : date := mkdate (year t) (month t) (day t).

Definition is_leap (y : Z) : bool :=
  (y mod 4 =? 0) && (negb (y mod 100 =? 0) || (y mod 400 =? 0)).

Definition days_before_year (y : Z) : Z :=
  let y := y - 1 in y * 365 + y / 4 - y / 100 + y / 400.

Definition DAYS_IN_MONTH : list Z := [31; 28; 31; 30; 31; 30; 31; 31; 30; 31; 30; 31].

Definition days_in_month (y m : Z) : Z :=
  if (m =? 2) && is_leap y then 29
  else nth (Z.to_nat (m - 1)) DAYS_IN_MONTH 0.

Definition days_before_month (y m : Z) : Z :=
  fold_right Z.add 0 (firstn (Z.to_nat (m - 1)) DAYS_IN_MONTH)
  + (if (2 <? m) && is_leap y then 1 else 0).

Definition ymd2ord (y m d : Z) : Z :=
  days_before_year y + days_before_month y m + d.

Definition toordinal (d : date) : Z := ymd2ord (dyear d) (dmonth d) (dday d).

(** [date.weekday()]: Monday is 0, Sunday is 6. *)
Definition weekday (d : date) : Z := (toordinal d + 6) mod 7.

(** [(a - b)] as a [timedelta], held as its total number of microseconds. *)
Definition sub (a b : datetime) : Z :=
  let days := toordinal (date_of a) - toordinal (date_of b) in
  let secs := (second a + minute a * 60 + hour a * 3600)
              - (second b + minute b * 60 + hour b * 3600) in
  (days * 86400 + secs) * 1000000 + (microsecond a - microsecond b).

(** [a <= b] on naive instants. *)
Definition leb (a b : datetime) : bool := sub a b <=? 0.

Definition valid (t : datetime) : Prop :=
  1 <= year t <= 9999 /\ 1 <= month t <= 12 /\
  1 <= day t <= days_in_month (year t) (month t) /\
  0 <= hour t < 24 /\ 0 <= minute t < 60 /\ 0 <= second t < 60 /\
  0 <= microsecond t < 1000000.

Definition digit (n : Z) : ascii := ascii_of_nat (48 + Z.to_nat (n mod 10)).

(** ["%0wd" % n] for [0 <= n < 10^w]. *)
Fixpoint zfill (w : nat) (n : Z) (rest : string) : string :=
  match w with
  | O => rest
  | S w' => zfill w' (n / 10) (String (digit n) rest)
  end.

(** [datetime.isoformat()] of a naive instant: the fraction is written only
    when the microsecond is not zero. *)
Definition isoformat (t : datetime) : string :=
  zfill 4 (year t) ("-" +:+ zfill 2 (month t) ("-" +:+ zfill 2 (day t) ("T" +:+
  zfill 2 (hour t) (":" +:+ zfill 2 (minute t) (":" +:+ zfill 2 (second t)
  (if microsecond t =? 0 then "" else "." +:+ zfill 6 (microsecond t) "")))))).

Definition digit_val (c : ascii) : option Z :=
  let n := Z.of_nat (nat_of_ascii c) in
  if (48 <=? n) && (n <=? 57) then Some (n - 48) else None.

(** Reads [w] decimal digits off the front of [s]. *)
Fixpoint read_digits (w : nat) (acc : Z) (s : string) : option (Z * string) :=
  match w with
  | O => Some (acc, s)
  | S w' =>
      match s with
      | String c s' => d ← digit_val c; read_digits w' (acc * 10 + d) s'
      | EmptyString => None
      end
  end.

Definition expect (c : ascii) (s : string) : option string :=
  match s with
  | String c' s' => if Ascii.eqb c c' then Some s' else None
  | EmptyString => None
  end.

Definition in_range (t : datetime) : bool :=
  (1 <=? year t) && (1 <=? month t) && (month t <=? 12) &&
  (1 <=? day t) && (day t <=? days_in_month (year t) (month t)) &&
  (hour t <? 24) && (minute t <? 60) && (second t <? 60).

(** A reader of the two shapes [isoformat] writes,
    [YYYY-MM-DDTHH:MM:SS] and [YYYY-MM-DDTHH:MM:SS.ffffff]; it stands in for
    [datetime.fromisoformat] where a concrete one is needed to evaluate the
    model. [None] is [ValueError]. *)
Definition fromisoformat_written (s : string) : option datetime :=
  '(y, s) ← read_digits 4 0 s; s ← expect "-" s;
  '(mo, s) ← read_digits 2 0 s; s ← expect "-" s;
  '(d, s) ← read_digits 2 0 s; s ← expect "T" s;
  '(h, s) ← read_digits 2 0 s; s ← expect ":" s;
  '(mi, s) ← read_digits 2 0 s; s ← expect ":" s;
  '(se, s) ← read_digits 2 0 s;
  '(us, s) ← match s with
             | EmptyString => Some (0, s)
             | _ => s ← expect "." s; read_digits 6 0 s
             end;
  let t := mkdatetime y mo d h mi se us in
  match s with
  | EmptyString => if in_range t then Some t else None
  | _ => None
  end.

End Datetime.
Import Datetime.

(** ** What the program takes from the Python runtime *)

(** Float arithmetic and the ISO 8601 reader belong to CPython, not to the
    program: the model is parametric in them. [num] holds the numbers
    [total_hours] computes; nothing is assumed of [num_add] or [sum] (floats
    round, and [sum] may compensate), and nothing of [fromisoformat] beyond
    what a statement names. The instants are naive: the program writes no
    UTC offset, and a stored string that carries one is not modelled. *)
Class Runtime : Type := {
  num : Type;
  (** [0.0] *)
  num_zero : num;
  (** [a + b] *)
  num_add : num -> num -> num;
  (** [td.total_seconds() / 3600.0] for a timedelta of that many microseconds *)
  hours : Z -> num;
  (** the builtin [sum] of a list of numbers *)
  sum : list num -> num;
  (** [datetime.fromisoformat]; [None] is [ValueError] *)
  fromisoformat : string -> option datetime
}.

(** An instance with exact rational arithmetic, to evaluate the model on
    concrete inputs. *)
Definition exact_runtime : Runtime := {|
  num := Q;
  num_zero := 0%Q;
  num_add := fun a b => Qred (a + b)%Q;
  hours := fun us => Qred (us # 3600000000)%Q;
  sum := fun l => fold_left (fun a b => Qred (a + b)%Q) l 0%Q;
  fromisoformat := fromisoformat_written
|}.

(** ** Data models *)

Record DayData : Type := mkDayData {
  sessions : pyval;
  notes : pyval;
  running_start : option datetime }.

Record TaskRowData : Type := mkTaskRowData {
  task : pyval;
  subtask : pyval;
  days : list DayData }.

Module DayData.

(** [DayData()] *)
Definition new : DayData := mkDayData (PList []) (PStr "") None.

Definition set_sessions (v : pyval) (self : DayData) : DayData :=
  mkDayData v (notes self) (running_start self).
Definition set_notes (v : pyval) (self : DayData) : DayData :=
  mkDayData (sessions self) v (running_start self).
Definition set_running_start (v : option datetime) (self : DayData) : DayData :=
  mkDayData (sessions self) (notes self) v.

(** [datetime.fromisoformat(v)] *)
Definition parse `{Runtime} (v : pyval) : res datetime :=
  match v with
  | PStr s => match fromisoformat s with Some t => Ok t | None => Raise ValueError end
  | _ => Raise TypeError
  end.

(** One turn of the loop of [total_hours]. *)
Definition add_session `{Runtime} (total : num) (item : pyval) : res num :=
  '(s_iso, e_iso) ← unpack2 item;
  s ← parse s_iso;
  e ← parse e_iso;
  Ok (num_add total (hours (sub e s))).

(** [now] is what [datetime.now()] returns inside the call. *)
Definition total_hours `{Runtime} (now : datetime) (self : DayData) : res num :=
  items ← iter (sessions self);
  total ← for_each add_session num_zero items;
  match running_start self with
  | Some t0 => Ok (num_add total (hours (sub now t0)))
  | None => Ok total
  end.

Definition to_dict (self : DayData) : pyval :=
  PDict [("sessions", sessions self); ("notes", notes self)].

Definition from_dict (d : pyval) : res DayData :=
  let obj := new in
  s ← get d "sessions" (PList []);
  let obj := set_sessions s obj in
  n ← get d "notes" (PStr "");
  let obj := set_notes n obj in
  Ok obj.

End DayData.

Module TaskRowData.

(** [TaskRowData(task=t, subtask=s)]: seven fresh day records. *)
Definition new (t s : pyval) : TaskRowData :=
  mkTaskRowData t s (replicate 7 DayData.new).

Definition set_days (ds : list DayData) (self : TaskRowData) : TaskRowData :=
  mkTaskRowData (task self) (subtask self) ds.

Definition total_hours `{Runtime} (now : datetime) (self : TaskRowData) : res num :=
  hs ← list_comp (DayData.total_hours now) (days self);
  Ok (sum hs).

Definition to_dict (self : TaskRowData) : pyval :=
  PDict [("task", task self); ("subtask", subtask self);
         ("days", PList (map DayData.to_dict (days self)))].

Definition from_dict (d : pyval) : res TaskRowData :=
  t ← getitem d "task";
  s ← getitem d "subtask";
  let tr := new t s in
  ds ← get d "days" (PList []);
  dds ← iter ds;
  ds' ← list_comp DayData.from_dict dds;
  Ok (set_days ds' tr).

End TaskRowData.

(** ** The application state *)

(** [timesheet_data.json] as the program can find it. [Document raw] is a
    file that [json.load] reads as the Python value [raw]. *)
Inductive file_state : Type :=
| NoFile
| Unreadable
| Document (raw : pyval).

(** The fields of [TimesheetApp] the timer and the store work on. [self.rows]
    is not a field of its own: from [_load_employee_week] on it is the very
    list object held at [self.data_store[self._data_key()]], so a change made
    through one is seen through the other. *)
Record App : Type := mkApp {
  data_store : gmap string (list TaskRowData);
  emp_combo : string;
  week_start : date;
  active_timer : option (nat * nat);
  DATA_FILE : file_state }.

Definition set_data_store (ds : gmap string (list TaskRowData)) (self : App) : App :=
  mkApp ds (emp_combo self) (week_start self) (active_timer self) (DATA_FILE self).
Definition set_active_timer (t : option (nat * nat)) (self : App) : App :=
  mkApp (data_store self) (emp_combo self) (week_start self) t (DATA_FILE self).
Definition set_DATA_FILE (f : file_state) (self : App) : App :=
  mkApp (data_store self) (emp_combo self) (week_start self) (active_timer self) f.

(** [date.isoformat()] *)
Definition date_isoformat (d : date) : string :=
  zfill 4 (dyear d) ("-" +:+ zfill 2 (dmonth d) ("-" +:+ zfill 2 (dday d) "")).

Definition _data_key (self : App) : string :=
  emp_combo self +:+ "::" +:+ date_isoformat (week_start self).

Definition rows (self : App) : list TaskRowData :=
  default [] (data_store self !! _data_key self).

Definition set_rows (rs : list TaskRowData) (self : App) : App :=
  set_data_store (<[_data_key self := rs]> (data_store self)) self.

(** A method of the application: it returns or raises, and either way leaves
    a state behind. *)
Definition M (A : Type) : Type := App -> res A * App.

#[export] Instance M_ret : MRet M := fun A a self => (Ok a, self).
#[export] Instance M_bind : MBind M := fun A B f m self =>
  match m self with
  | (Ok a, self') => f a self'
  | (Raise e, self') => (Raise e, self')
  end.

Definition lift {A} (r : res A) : M A := fun self => (r, self).
Definition gets {A} (f : App -> A) : M A := fun self => (Ok (f self), self).
Definition modify (f : App -> App) : M unit := fun self => (Ok tt, f self).

(** [try: body except Exception: handler] *)
Definition try_except {A} (body : M A) (handler : M A) : M A := fun self =>
  match body self with
  | (Ok a, self') => (Ok a, self')
  | (Raise _, self') => handler self'
  end.

(** [for x in xs: body(x)] *)
Fixpoint for_in {A} (xs : list A) (body : A -> M unit) : M unit :=
  match xs with
  | [] => mret tt
  | x :: xs' => body x ≫= fun _ => for_in xs' body
  end.

(** [l[i]] for an index [i >= 0]. *)
Definition index {A} (l : list A) (i : nat) : res A :=
  match l !! i with
  | Some x => Ok x
  | None => Raise IndexError
  end.

(** [self.rows[ri].days[di]] *)
Definition day_at (ri di : nat) : M DayData := fun self =>
  (row ← index (rows self) ri; index (days row) di, self).

(** An attribute of the object [self.rows[ri].days[di]] is assigned: the
    record at that place becomes [dd]. *)
Definition put_day (ri di : nat) (dd : DayData) : M unit :=
  modify (fun self =>
    set_rows (alter (fun r => TaskRowData.set_days (<[di := dd]> (days r)) r) ri (rows self)) self).

(** *** The store *)

(** [raw.items()] *)
Definition items (raw : pyval) : res (list (string * pyval)) :=
  match raw with
  | PDict kvs => Ok kvs
  | _ => Raise AttributeError
  end.

(** [with open(self.DATA_FILE, "r") as f: raw = json.load(f)] *)
Definition json_load : M pyval := fun self =>
  match DATA_FILE self with
  | Document raw => (Ok raw, self)
  | Unreadable => (Raise JSONDecodeError, self)
  | NoFile => (Raise OSError, self)
  end.

Definition path_exists (self : App) : bool :=
  match DATA_FILE self with NoFile => false | _ => true end.

(** [[TaskRowData.from_dict(r) for r in rws]] *)
Definition load_rows (rws : pyval) : res (list TaskRowData) :=
  r ← iter rws; list_comp TaskRowData.from_dict r.

Definition _load_data : M unit :=
  ex ← gets path_exists;
  if ex : bool then
    try_except
      (raw ← json_load;
       kvs ← lift (items raw);
       for_in kvs (fun '(key, rws) =>
         rs ← lift (load_rows rws);
         modify (fun self => set_data_store (<[key := rs]> (data_store self)) self)))
      (modify (set_data_store ∅))
  else mret tt.

(** The dict [_save_data] hands to [json.dump]. *)
Definition out (self : App) : pyval :=
  PDict (map (fun kv => (fst kv, PList (map TaskRowData.to_dict (snd kv))))
             (map_to_list (data_store self))).

(** The write is taken to succeed; the file then reads back as
    [json_roundtrip] of what was dumped. *)
Definition _save_data : M unit :=
  modify (fun self => set_DATA_FILE (Document (json_roundtrip (out self))) self).

(** [__init__], as far as the store goes: an empty [data_store], no active
    timer, then [_load_data]. *)
Definition init (emp : string) (monday : date) (f : file_state) : App :=
  snd (_load_data (mkApp ∅ emp monday None f)).

(** *** Totals shown in the table *)

Definition reads {A} (f : App -> res A) : M A := fun self => (f self, self).

(** [sum(r.days[di].total_hours() for r in self.rows)] *)
Definition total_day `{Runtime} (now : datetime) (self : App) (di : nat) : res num :=
  hs ← list_comp (fun r => dd ← index (days r) di; DayData.total_hours now dd) (rows self);
  Ok (sum hs).

(** [sum(r.total_hours() for r in self.rows)] *)
Definition week_total `{Runtime} (now : datetime) (self : App) : res num :=
  hs ← list_comp (TaskRowData.total_hours now) (rows self);
  Ok (sum hs).

(** The numbers [_add_total_row] puts in the "Daily Total" row: the seven
    daily totals and the week total; [None] when it returns early on an empty
    sheet. *)
Definition _add_total_row `{Runtime} (now : datetime) (self : App)
  : res (option (list num * num)) :=
  match rows self with
  | [] => Ok None
  | _ =>
      tds ← list_comp (total_day now self) (seq 0 7);
      wt ← week_total now self;
      Ok (Some (tds, wt))
  end.

(** The number [_update_week_total] writes in the label. *)
Definition _update_week_total `{Runtime} (now : datetime) (self : App) : res num :=
  week_total now self.

(** [QLabel(text)]: of the overloads of the constructor the one with a first
    positional argument takes a [str]; any other value matches none of them,
    which PyQt answers with [TypeError]. *)
Definition QLabel (text : pyval) : res unit :=
  match text with
  | PStr _ => Ok tt
  | _ => Raise TypeError
  end.

(** [TaskCell(task, subtask, delete_callback)]: the two labels it makes
    first, [QLabel(task if task else "(No Task)")] and
    [QLabel(subtask if subtask else "(No Subtask)")]. *)
Definition TaskCell (task subtask : pyval) : res unit :=
  QLabel (if truthy task then task else PStr "(No Task)");;
  QLabel (if truthy subtask then subtask else PStr "(No Subtask)").

(** The numbers [_build_table] shows, in the order it computes them: per row,
    after the [TaskCell] of the row, the seven day cells and the row total,
    then the total row and the label. Of the widgets only what can make the
    call raise is kept. *)
Definition _build_table `{Runtime} (now : datetime) (self : App)
  : res (list (list num * num) * option (list num * num) * num) :=
  body ← list_comp (fun row =>
            TaskCell (task row) (subtask row);;
            cells ← list_comp (fun di => dd ← index (days row) di;
                                         DayData.total_hours now dd) (seq 0 7);
            total ← TaskRowData.total_hours now row;
            Ok (cells, total)) (rows self);
  tr ← _add_total_row now self;
  lbl ← _update_week_total now self;
  Ok (body, tr, lbl).

(** *** The timer *)

(** What a click on a day's button comes to: a timer started, a timer
    stopped, or a [QMessageBox.warning] with its title and text. *)
Inductive outcome : Type :=
| Started
| Stopped
| Warning (title text : string).

(** The rejection the specification calls [TimerBusyError]. *)
Definition TimerBusyError : outcome :=
  Warning "Active Timer" "Please stop the current timer first.".

(** The rejection the specification calls [WrongDayError]. *)
Definition WrongDayError : outcome :=
  Warning "Invalid" "You can only start today's timer.".

(** [now] is the reading of [datetime.now()] that closes the session; the
    totals computed afterwards read the clock again, which only matters to a
    day whose timer is open. *)
Definition _stop_timer `{Runtime} (ri di : nat) (now : datetime) : M unit :=
  dd ← day_at ri di;
  dd ← match running_start dd with
       | Some t0 =>
           match sessions dd with
           | PList l =>
               let dd := DayData.set_sessions
                           (PList (l ++ [PTuple [PStr (isoformat t0); PStr (isoformat now)]])) dd in
               put_day ri di dd;;
               let dd := DayData.set_running_start None dd in
               put_day ri di dd;;
               mret dd
           | _ => lift (Raise AttributeError)
           end
       | None => mret dd
       end;
  lift (DayData.total_hours now dd);;
  modify (set_active_timer None);;
  _save_data;;
  reads (_build_table now);;
  mret tt.

(** [today] is the reading of [date.today()], [now] the later one of
    [datetime.now()]. *)
Definition _toggle_timer `{Runtime} (ri di : nat) (today : date) (now : datetime)
  : M outcome :=
  dd ← day_at ri di;
  timer ← gets active_timer;
  if decide (timer = Some (ri, di)) then
    _stop_timer ri di now;; mret Stopped
  else if timer is Some _ then
    mret TimerBusyError
  else if decide (Z.of_nat di ≠ weekday today) then
    mret WrongDayError
  else
    put_day ri di (DayData.set_running_start (Some now) dd);;
    modify (set_active_timer (Some (ri, di)));;
    mret Started.

(** A click on the button of a cell, with the two clock readings of the
    slot. The buttons are wired with [ri] from [enumerate(self.rows)] and [di]
    from [range(7)], so both are natural numbers. *)
Record click : Type := mkclick {
  click_ri : nat; click_di : nat; click_today : date; click_now : datetime }.

Definition do_click `{Runtime} (c : click) (self : App) : App :=
  snd (_toggle_timer (click_ri c) (click_di c) (click_today c) (click_now c) self).

(** The state after a sequence of clicks, exceptions included: a slot that
    raises leaves the application running. *)
Definition run `{Runtime} (cs : list click) (self : App) : App :=
  fold_left (fun s c => do_click c s) cs self.

(** The cells whose timer is open, row by row. *)
Definition open_days (r : TaskRowData) : list nat :=
  omap (fun '(di, dd) => if running_start dd is Some _ then Some di else None)
       (imap pair (days r)).

Definition open_timers (self : App) : list (nat * nat) :=
  mjoin (imap (fun ri r => map (pair ri) (open_days r)) (rows self)).

(** [Idle]: no active timer and no open session. *)
Definition Idle (self : App) : Prop :=
  active_timer self = None /\ open_timers self = [].

(** The record at a cell, if the sheet has that cell. *)
Definition get_day (self : App) (ri di : nat) : option DayData :=
  r ← rows self !! ri; days r !! di.

(** The invariant behind the single active timer: every cell whose timer is
    open is the one [active_timer] names. *)
Definition timer_inv (self : App) : Prop :=
  forall p, p ∈ open_timers self -> active_timer self = Some p.

(** No day of these entries has an open timer. *)
Definition no_open_timer (rs : list TaskRowData) : Prop :=
  Forall (fun r => Forall (fun d => running_start d = None) (days r)) rs.

(** *** Straight-line readings used in the proofs *)

(** The record [_stop_timer] leaves at a cell whose timer was opened at [t0]
    and whose [sessions] is the list [l]. *)
Definition closed_day (dd : DayData) (l : list pyval) (t0 now : datetime) : DayData :=
  DayData.set_running_start None
    (DayData.set_sessions
       (PList (l ++ [PTuple [PStr (isoformat t0); PStr (isoformat now)]])) dd).

(** The two assignments of [_stop_timer] to the cell. *)
Definition close_cell (ri di : nat) (dd : DayData) (l : list pyval) (t0 now : datetime)
  (self : App) : App :=
  snd (put_day ri di (closed_day dd l t0 now)
         (snd (put_day ri di
                 (DayData.set_sessions
                    (PList (l ++ [PTuple [PStr (isoformat t0); PStr (isoformat now)]])) dd)
                 self))).

(** [_stop_timer] from [widget.set_hours(dd.total_hours())] on. *)
Definition stop_finish `{Runtime} (now : datetime) (dd : DayData) (self : App)
  : res unit * App :=
  match DayData.total_hours now dd with
  | Raise e => (Raise e, self)
  | Ok _ =>
      let self' := set_active_timer None self in
      let self' := set_DATA_FILE (Document (json_roundtrip (out self'))) self' in
      (match _build_table now self' with Ok _ => Ok tt | Raise e => Raise e end, self')
  end.

(** *** The store, read all at once *)

(** The sheets of a document, if every one of them can be read. *)
Definition parse_store (raw : pyval) : res (list (string * list TaskRowData)) :=
  kvs ← items raw;
  list_comp (fun kv => rs ← load_rows (snd kv); Ok (fst kv, rs)) kvs.

(** [for key, rs in l: store[key] = rs] *)
Definition insert_all (l : list (string * list TaskRowData))
  (store : gmap string (list TaskRowData)) : gmap string (list TaskRowData) :=
  fold_left (fun m kv => <[fst kv := snd kv]> m) l store.

(** The store a fresh application is expected to hold after [_load_data]:
    all the sheets of the file, or nothing. *)
Definition loaded_store (f : file_state) : gmap string (list TaskRowData) :=
  match f with
  | Document raw =>
      match parse_store raw with
      | Ok l => insert_all l ∅
      | Raise _ => ∅
      end
  | _ => ∅
  end.

(** A record as it comes back from the file: the open timer is gone, and
    the values have gone through JSON. *)
Definition persisted_day (d : DayData) : DayData :=
  mkDayData (json_roundtrip (sessions d)) (json_roundtrip (notes d)) None.

Definition persisted_row (r : TaskRowData) : TaskRowData :=
  mkTaskRowData (json_roundtrip (task r)) (json_roundtrip (subtask r))
                (map persisted_day (days r)).

(** The start and end of each session, as the loop of [total_hours] unpacks
    them. *)
Definition session_pairs (v : pyval) : res (list (pyval * pyval)) :=
  its ← iter v; list_comp unpack2 its.

(** *** Aggregation as the specification words it *)

(** The specification's totals, over the table [hss] of the hours of every
    day of every entry ([totalHours(day, now)], one row of seven per entry):
    an entry's total is the sum over its days, a weekday's total the sum over
    the entries of that weekday's hours, the week's total the sum over the
    entries of their totals. *)
Definition spec_totalHours `{Runtime} (hs : list num) : num := sum hs.

Definition spec_dailyTotal `{Runtime} (hss : list (list num)) (weekday : nat) : num :=
  sum (map (fun hs => nth weekday hs num_zero) hss).

Definition spec_weeklyTotal `{Runtime} (hss : list (list num)) : num :=
  sum (map spec_totalHours hss).

(** [hss] is the table of the hours of the days of the loaded sheet at [now]. *)
Definition hours_table `{Runtime} (now : datetime) (self : App) (hss : list (list num)) : Prop :=
  Forall2 (fun r hs => Forall2 (fun d h => DayData.total_hours now d = Ok h) (days r) hs)
          (rows self) hss.

(** *** The scenario of the specification *)

(** Employee "A", week of Monday 2024-06-03, one task added and the store
    saved, as [_add_task] leaves them. *)
Definition scenario_app : App :=
  snd (_save_data
         (mkApp {[ "A::2024-06-03" :=
                     [TaskRowData.new (PStr "Curriculum Development")
                                      (PStr "Presentation (PPT) Preparation")] ]}
                "A" (mkdate 2024 6 3) None NoFile)).

Definition t0900 : datetime := mkdatetime 2024 6 3 9 0 0 0.
Definition t0930 : datetime := mkdatetime 2024 6 3 9 30 0 0.
Definition t1015 : datetime := mkdatetime 2024 6 3 10 15 0 0.

(** The click that starts Monday's timer at 09:00. *)
Definition click_monday_0900 : click := mkclick 0 0 (date_of t0900) t0900.

(** The same week with a second task added. *)
Definition two_task_app : App :=
  snd (_save_data
         (mkApp {[ "A::2024-06-03" :=
                     [TaskRowData.new (PStr "Curriculum Development")
                                      (PStr "Presentation (PPT) Preparation");
                      TaskRowData.new (PStr "Meeting") (PStr "Meeting")] ]}
                "A" (mkdate 2024 6 3) None NoFile)).

Definition t0800 : datetime := mkdatetime 2024 6 3 8 0 0 0.

(** A file with one entry that has no ["days"]. *)
Definition file_without_days : file_state :=
  Document (PDict [("A::2024-06-03",
                    PList [PDict [("task", PStr "Meeting"); ("subtask", PStr "Meeting")]])]).

(** A file with one entry whose seven days have no ["notes"]. *)
Definition file_without_notes : file_state :=
  Document (PDict [("A::2024-06-03",
                    PList [PDict [("task", PStr "Meeting"); ("subtask", PStr "Meeting");
                                  ("days", PList (replicate 7
                                     (PDict [("sessions", PList [])])))]])]).

(** ** The rest of the application *)

(** *** The week *)

Definition MAXORDINAL : Z := 3652059.

(** [_DAYS_BEFORE_MONTH[m]] *)
Definition DAYS_BEFORE_MONTH (m : Z) : Z :=
  fold_right Z.add 0 (firstn (Z.to_nat (m - 1)) DAYS_IN_MONTH).

(** The end of [_ord2ymd]: the month and the day of the [n]-th day (from 0)
    of a year, from the estimate [(n + 50) >> 5]. *)
Definition month_day (leapyear : bool) (n : Z) : Z * Z :=
  let month := Z.shiftr (n + 50) 5 in
  let preceding := DAYS_BEFORE_MONTH month + (if (2 <? month) && leapyear then 1 else 0) in
  if n <? preceding then
    let month := month - 1 in
    let preceding :=
      preceding - (nth (Z.to_nat (month - 1)) DAYS_IN_MONTH 0
                   + (if (month =? 2) && leapyear then 1 else 0)) in
    (month, n - preceding + 1)
  else (month, n - preceding + 1).

(** [date.fromordinal(n)], by [_ord2ymd]. *)
Definition ord2ymd (n : Z) : date :=
  let n := n - 1 in
  let n400 := n / 146097 in
  let n := n mod 146097 in
  let year := n400 * 400 + 1 in
  let n100 := n / 36524 in
  let n := n mod 36524 in
  let n4 := n / 1461 in
  let n := n mod 1461 in
  let n1 := n / 365 in
  let n := n mod 365 in
  let year := year + n100 * 100 + n4 * 4 + n1 in
  if (n1 =? 4) || (n100 =? 4) then mkdate (year - 1) 12 31
  else
    let leapyear := (n1 =? 3) && (negb (n4 =? 24) || (n100 =? 3)) in
    let '(month, day) := month_day leapyear n in
    mkdate year month day.

(** [d - timedelta(days=k)]; [None] is [OverflowError]. *)
Definition date_sub_days (d : date) (k : Z) : option date :=
  let o := toordinal d - k in
  if (0 <? o) && (o <=? MAXORDINAL) then Some (ord2ymd o) else None.

Definition _monday_of (d : date) : option date :=
  date_sub_days d (weekday d).

Definition valid_date (d : date) : Prop :=
  1 <= dyear d <= 9999 /\ 1 <= dmonth d <= 12 /\
  1 <= dday d <= days_in_month (dyear d) (dmonth d).

(** *** Tasks and employees *)

(** What [_add_task] comes to: the task added, or a [QMessageBox.warning]. *)
Inductive reply : Type :=
| Done
| Refused (title text : string).

(** [task] and [subtask] are the texts of the two combo boxes after
    [.strip()]. *)
Definition _add_task `{Runtime} (task subtask : string) (now : datetime) : M reply :=
  if String.eqb task "" then
    mret (Refused "Invalid" "Please enter or select a Task.")
  else
    let new_row := TaskRowData.new (PStr task) (PStr subtask) in
    modify (fun self => set_rows (rows self ++ [new_row]) self);;
    _save_data;;
    reads (_build_table now);;
    mret Done.

(** [confirm] tells whether the user answered Yes to the question;
    [index] comes from [enumerate(self.rows)]. *)
Definition _delete_task `{Runtime} (index : nat) (confirm : bool) (now : datetime) : M unit :=
  if confirm then
    rs ← gets rows;
    (if decide (index < length rs)%nat
     then modify (set_rows (delete index rs))
     else lift (Raise IndexError));;
    _save_data;;
    reads (_build_table now);;
    mret tt
  else mret tt.

Definition set_emp_combo (emp : string) (self : App) : App :=
  mkApp (data_store self) emp (week_start self) (active_timer self) (DATA_FILE self).

Definition _load_employee_week `{Runtime} (now : datetime) : M unit :=
  emp ← gets emp_combo;
  if String.eqb emp "" then mret tt
  else
    key ← gets _data_key;
    modify (fun self =>
      match data_store self !! key with
      | Some _ => self
      | None => set_data_store (<[key := []]> (data_store self)) self
      end);;
    reads (_build_table now);;
    mret tt.

(** The department field and the task combo box are widgets; what is left
    of [_on_employee_changed] is the call it ends with. *)
Definition _on_employee_changed `{Runtime} (now : datetime) : M unit :=
  _load_employee_week now.

(** The user picks [emp] in the employee combo box: the text changes and
    [currentTextChanged] runs the slot. *)
Definition select_employee `{Runtime} (emp : string) (now : datetime) : M unit :=
  cur ← gets emp_combo;
  if String.eqb emp cur then mret tt
  else modify (set_emp_combo emp);; _on_employee_changed now.

(** A [DayCell] widget, kept for its place in the grid only. *)
Inductive DayCell : Type := mkDayCell.

(** What a tick of the timer shows: nothing without an active timer, else
    the hours of the active cell and the week total. [cells] is the grid
    [self.cells] as the last [_build_table] left it, one list of widgets per
    row it got through; the tick looks the widget of the active cell up in
    it after it has computed the hours. *)
Definition _update_running_timer `{Runtime} (now : datetime) (cells : list (list DayCell))
  (self : App) : res (option (num * num)) :=
  match active_timer self with
  | None => Ok None
  | Some (ri, di) =>
      row ← index (rows self) ri;
      dd ← index (days row) di;
      hrs ← DayData.total_hours now dd;
      cell_row ← index cells ri;
      _ ← index cell_row di;
      wk ← _update_week_total now self;
      Ok (Some (hrs, wk))
  end.

(** [__init__] for the employee [emp] the combo box starts on: the week of
    [today], the store loaded, the employee's sheet opened. *)
Definition startup `{Runtime} (emp : string) (today : date) (now : datetime)
  (f : file_state) : option App :=
  monday ← _monday_of today;
  Some (snd (_on_employee_changed now (init emp monday f))).

(** *** What the user does *)

Inductive event : Type :=
| Click (c : click)
| AddTask (task subtask : string) (now : datetime)
| DeleteTask (index : nat) (confirm : bool) (now : datetime)
| SelectEmployee (emp : string) (now : datetime).

Definition step `{Runtime} (e : event) (self : App) : App :=
  match e with
  | Click c => do_click c self
  | AddTask t s now => snd (_add_task t s now self)
  | DeleteTask i c now => snd (_delete_task i c now self)
  | SelectEmployee emp now => snd (select_employee emp now self)
  end.

Definition run_events `{Runtime} (es : list event) (self : App) : App :=
  fold_left (fun s e => step e s) es self.

(** The events that neither remove a row nor change the sheet in view. *)
Definition keeps_rows (e : event) : bool :=
  match e with
  | Click _ | AddTask _ _ _ => true
  | DeleteTask _ _ _ | SelectEmployee _ _ => false
  end.

(** A day record later on: the same notes, the sessions the same or a list
    with more at its end. *)
Definition day_grown (d d' : DayData) : Prop :=
  notes d' = notes d /\
  (sessions d' = sessions d \/
   exists l more, sessions d = PList l /\ sessions d' = PList (l ++ more)).

Definition row_grown (r r' : TaskRowData) : Prop :=
  task r' = task r /\ subtask r' = subtask r /\ Forall2 day_grown (days r) (days r').

(** Every entry of every sheet of the store has seven days. *)
Definition seven_days (self : App) : Prop :=
  map_Forall (fun _ rs => Forall (fun r => length (days r) = 7%nat) rs) (data_store self).

(** What [_ord2ymd] asserts of [month_day]: a month, a day of that month,
    and [n] days before it in the year. *)
Definition month_day_ok (leapyear : bool) (n : Z) : bool :=
  let '(m, d) := month_day leapyear n in
  (1 <=? m) && (m <=? 12) && (1 <=? d) &&
  (d <=? (if (m =? 2) && leapyear then 29 else nth (Z.to_nat (m - 1)) DAYS_IN_MONTH 0)) &&
  (DAYS_BEFORE_MONTH m + (if (2 <? m) && leapyear then 1 else 0) + d =? n + 1).

(** The state [_save_data] leaves. *)
Definition saved (self : App) : App :=
  set_DATA_FILE (Document (json_roundtrip (out self))) self.

(** A sheet later on: the entries it had, each in its place and grown,
    followed by the entries added since. *)
Definition sheet_grown (rs rs' : list TaskRowData) : Prop :=
  exists rs1 rs2, rs' = rs1 ++ rs2 /\ Forall2 row_grown rs rs1.

(** The store later on, the sheet in view being the same one: the other
    sheets as they were, the sheet in view grown. *)
Definition kept (self self' : App) : Prop :=
  emp_combo self' = emp_combo self /\
  week_start self' = week_start self /\
  (forall k, k <> _data_key self -> data_store self' !! k = data_store self !! k) /\
  sheet_grown (rows self) (rows self').

(** The employee the event picks, if it picks one, has a name. The combo
    box offers the keys of [employee_data], none of them empty; with an
    empty text [_load_employee_week] would return before it binds
    [self.rows] to the sheet of the key. *)
Definition names_employee (e : event) : bool :=
  match e with
  | SelectEmployee emp _ => negb (String.eqb emp "")
  | _ => true
  end.

(** A data file with a sheet of "B" whose entry has no ["subtask"]. *)
Definition file_with_broken_sheet : file_state :=
  Document (PDict [("B::2024-06-03",
                    PList [PDict [("task", PStr "Meeting"); ("days", PList [])]])]).

(** A value [TaskCell] can show in a label: a string, or a value that
    counts as false, in whose place the placeholder text is shown. *)
Definition label_text (v : pyval) : Prop :=
  truthy v = true -> exists s, v = PStr s.

(** * Properties *)

(** ** Dates and instants *)

(** The scenario of the specification: Monday 2024-06-03. *)
Example monday_2024_06_03 : weekday (mkdate 2024 6 3) = 0.
Proof. reflexivity. Qed.

Example isoformat_0900 :
  isoformat (mkdatetime 2024 6 3 9 0 0 0) = "2024-06-03T09:00:00".
Proof. reflexivity. Qed.

Example isoformat_micro :
  isoformat (mkdatetime 2024 6 3 9 0 0 1500) = "2024-06-03T09:00:00.001500".
Proof. reflexivity. Qed.

Example fromisoformat_written_1015 :
  fromisoformat_written "2024-06-03T10:15:00" = Some (mkdatetime 2024 6 3 10 15 0 0).
Proof. reflexivity. Qed.

Example sub_0900_1015 :
  sub (mkdatetime 2024 6 3 10 15 0 0) (mkdatetime 2024 6 3 9 0 0 0) = 4500000000.
Proof. reflexivity. Qed.



(** ** The scenarios of the specification, evaluated *)

(** Monday's timer is started at 09:00; at 09:30 Monday reads half an hour. *)
Example scenario_tick_0930 :
  let self := @run exact_runtime [click_monday_0900] scenario_app in
  active_timer self = Some (0, 0)%nat /\
  (d ← get_day self 0 0; Some (@DayData.total_hours exact_runtime t0930 d))
  = Some (Ok (1 # 2)%Q).
Proof. split; reflexivity. Qed.

(** Stopped at 10:15: one session, Monday and the week read 1.25 hours. *)
Example scenario_stop_1015 :
  let self := @run exact_runtime
                [click_monday_0900; mkclick 0 0 (date_of t1015) t1015] scenario_app in
  active_timer self = None /\
  (sessions <$> get_day self 0 0)
  = Some (PList [PTuple [PStr "2024-06-03T09:00:00"; PStr "2024-06-03T10:15:00"]]) /\
  @total_day exact_runtime t1015 self 0 = Ok (5 # 4)%Q /\
  @_update_week_total exact_runtime t1015 self = Ok (5 # 4)%Q.
Proof. repeat split; vm_compute; reflexivity. Qed.

(** With the timer running, Tuesday's button is refused and Monday's open
    session is untouched. *)
Example scenario_rejection :
  let self := @run exact_runtime [click_monday_0900] scenario_app in
  @_toggle_timer exact_runtime 0 1 (date_of t0930) t0930 self = (Ok TimerBusyError, self).
Proof. vm_compute. reflexivity. Qed.

(** On Wednesday 2024-06-05, Friday's button is refused. *)
Example scenario_wrong_day :
  @_toggle_timer exact_runtime 0 4 (mkdate 2024 6 5) (mkdatetime 2024 6 5 9 0 0 0)
     scenario_app
  = (Ok WrongDayError, scenario_app).
Proof. vm_compute. reflexivity. Qed.

(** ** Cells of the loaded sheet *)

Lemma rows_set_rows rs self : rows (set_rows rs self) = rs.
Proof. unfold rows, set_rows; simpl. unfold _data_key; simpl. by rewrite lookup_insert_eq. Qed.

Lemma rows_set_active_timer t self : rows (set_active_timer t self) = rows self.
Proof. reflexivity. Qed.

Lemma rows_set_DATA_FILE f self : rows (set_DATA_FILE f self) = rows self.
Proof. reflexivity. Qed.

Lemma day_at_spec ri di self :
  day_at ri di self = (match get_day self ri di with
                       | Some dd => Ok dd
                       | None => Raise IndexError
                       end, self).
Proof.
  unfold day_at, get_day, index. f_equal.
  destruct (rows self !! ri) as [r|]; simpl; [|done].
  by destruct (days r !! di).
Qed.

Lemma get_day_put_day ri di dd self ri' di' :
  get_day (snd (put_day ri di dd self)) ri' di' =
  if decide (ri' = ri /\ di' = di)
  then (_ ← get_day self ri di; Some dd)
  else get_day self ri' di'.
Proof.
  unfold put_day, modify, get_day; simpl. rewrite rows_set_rows.
  destruct (decide (ri' = ri)) as [->|Hr].
  - rewrite list_lookup_alter_eq.
    destruct (rows self !! ri) as [r|]; simpl; [|by case_decide].
    destruct (decide (di' = di)) as [->|Hd].
    + rewrite decide_True by done.
      destruct (days r !! di) eqn:E; simpl.
      * apply list_lookup_insert_eq. by eapply lookup_lt_Some.
      * rewrite list_insert_ge; [done|]. by apply lookup_ge_None.
    + rewrite decide_False by tauto. by apply list_lookup_insert_ne.
  - rewrite decide_False by tauto. by rewrite list_lookup_alter_ne.
Qed.

Lemma elem_of_open_days r di :
  di ∈ open_days r <-> exists dd, days r !! di = Some dd /\ is_Some (running_start dd).
Proof.
  unfold open_days. rewrite list_elem_of_omap. split.
  - intros [[i dd] [Hin Hs]]. apply elem_of_lookup_imap in Hin as (j & y & Heq & Hl).
    inversion Heq; subst. destruct (running_start y) eqn:E; [|done].
    inversion Hs; subst. exists y. split; [done|]. rewrite E. by eexists.
  - intros (dd & Hl & [t Ht]). exists (di, dd). split.
    + apply elem_of_lookup_imap. by exists di, dd.
    + by rewrite Ht.
Qed.

Lemma elem_of_open_timers self ri di :
  (ri, di) ∈ open_timers self <->
  exists dd, get_day self ri di = Some dd /\ is_Some (running_start dd).
Proof.
  unfold open_timers, get_day. rewrite list_elem_of_join. split.
  - intros (l & Hin & Hl). apply elem_of_lookup_imap in Hl as (j & r & -> & Hr).
    apply list_elem_of_fmap in Hin as (d & Heq & Hd). inversion Heq; subst.
    apply elem_of_open_days in Hd as (dd & Hdd & Hrun).
    exists dd. rewrite Hr. by simpl.
  - intros (dd & Hget & Hrun).
    destruct (rows self !! ri) as [r|] eqn:Hr; simpl in Hget; [|done].
    exists (map (pair ri) (open_days r)). split.
    + apply list_elem_of_fmap. exists di. split; [done|].
      apply elem_of_open_days. by exists dd.
    + apply elem_of_lookup_imap. by exists ri, r.
Qed.

Lemma open_days_from_NoDup (l : list DayData) (k : nat) :
  let f := fun '(di, dd) => if running_start dd is Some _ then Some di else None in
  NoDup (omap f (imap (fun i dd => ((k + i)%nat, dd)) l)) /\
  forall d, d ∈ omap f (imap (fun i dd => ((k + i)%nat, dd)) l) -> (k <= d)%nat.
Proof.
  intros f. revert k. induction l as [|dd l IH]; intros k.
  - split; [constructor|]. intros d Hd. inversion Hd.
  - rewrite imap_cons.
    assert (Hext : imap ((fun i dd0 => ((k + i)%nat, dd0)) ∘ S) l
                   = imap (fun i dd0 => ((S k + i)%nat, dd0)) l).
    { apply imap_ext. intros i x _. simpl. f_equal. lia. }
    rewrite Hext. destruct (IH (S k)) as [Hnd Hge].
    simpl. destruct (running_start dd); simpl.
    + split.
      * constructor; [|done]. intros Hin. apply Hge in Hin. lia.
      * intros d' Hd. apply elem_of_cons in Hd as [->|Hd]; [lia|].
        apply Hge in Hd. lia.
    + split; [done|]. intros d' Hd. apply Hge in Hd. lia.
Qed.

Lemma NoDup_open_days r : NoDup (open_days r).
Proof. apply (open_days_from_NoDup (days r) 0). Qed.

Lemma open_timers_from_NoDup (rs : list TaskRowData) (k : nat) :
  NoDup (mjoin (imap (fun i r => map (pair (k + i)%nat) (open_days r)) rs)) /\
  forall p, p ∈ mjoin (imap (fun i r => map (pair (k + i)%nat) (open_days r)) rs) ->
            (k <= fst p)%nat.
Proof.
  revert k. induction rs as [|r rs IH]; intros k.
  - split; [constructor|]. intros p Hp. inversion Hp.
  - rewrite imap_cons.
    assert (Hext : imap ((fun i r0 => map (pair (k + i)%nat) (open_days r0)) ∘ S) rs
                   = imap (fun i r0 => map (pair (S k + i)%nat) (open_days r0)) rs).
    { apply imap_ext. intros i x _. simpl. do 2 f_equal. lia. }
    rewrite Hext. destruct (IH (S k)) as [Hnd Hge]. simpl. split.
    + apply list.NoDup_app. split; [|split; [|done]].
      * apply NoDup_fmap_2; [|apply NoDup_open_days]. intros a b Hab. by inversion Hab.
      * intros p Hp Hp'. apply Hge in Hp'.
        apply list_elem_of_fmap in Hp as (d & -> & _). simpl in Hp'. lia.
    + intros p Hp. apply elem_of_app in Hp as [Hp|Hp].
      * apply list_elem_of_fmap in Hp as (d & -> & _). simpl. lia.
      * apply Hge in Hp. lia.
Qed.

Lemma NoDup_open_timers self : NoDup (open_timers self).
Proof. apply (open_timers_from_NoDup (rows self) 0). Qed.

Lemma NoDup_all_equal_length {A} (l : list A) :
  NoDup l -> (forall x y, x ∈ l -> y ∈ l -> x = y) -> (length l <= 1)%nat.
Proof.
  intros Hnd Heq. destruct l as [|x [|y l]]; simpl; [lia|lia|].
  exfalso. apply list.NoDup_cons in Hnd as [Hx _]. apply Hx.
  rewrite (Heq x y); [left|left|right; left].
Qed.

(** ** The timer, step by step *)

Ltac unfold_M :=
  unfold mbind, M_bind, mret, M_ret, lift, gets, modify, reads; simpl.

Lemma stop_timer_unfold `{Runtime} ri di now self :
  _stop_timer ri di now self =
  match get_day self ri di with
  | None => (Raise IndexError, self)
  | Some dd =>
      match running_start dd with
      | Some t0 =>
          match sessions dd with
          | PList l => stop_finish now (closed_day dd l t0 now) (close_cell ri di dd l t0 now self)
          | _ => (Raise AttributeError, self)
          end
      | None => stop_finish now dd self
      end
  end.
Proof.
  unfold _stop_timer. unfold mbind at 1. unfold M_bind at 1. rewrite day_at_spec.
  destruct (get_day self ri di) as [dd|]; [|done].
  destruct (running_start dd) as [t0|] eqn:Hrun.
  - destruct (sessions dd) eqn:Hs; try done.
    unfold stop_finish, close_cell, closed_day. unfold_M.
    destruct (DayData.total_hours now _); [|done].
    by destruct (_build_table now _).
  - unfold stop_finish. unfold_M.
    destruct (DayData.total_hours now dd); [|done].
    by destruct (_build_table now _).
Qed.

Lemma toggle_timer_unfold `{Runtime} ri di today now self :
  _toggle_timer ri di today now self =
  match get_day self ri di with
  | None => (Raise IndexError, self)
  | Some dd =>
      if decide (active_timer self = Some (ri, di)) then
        match _stop_timer ri di now self with
        | (Ok _, self') => (Ok Stopped, self')
        | (Raise e, self') => (Raise e, self')
        end
      else if active_timer self is Some _ then (Ok TimerBusyError, self)
      else if decide (Z.of_nat di ≠ weekday today) then (Ok WrongDayError, self)
      else (Ok Started,
            set_active_timer (Some (ri, di))
              (snd (put_day ri di (DayData.set_running_start (Some now) dd) self)))
  end.
Proof.
  unfold _toggle_timer. unfold mbind at 1. unfold M_bind at 1. rewrite day_at_spec.
  destruct (get_day self ri di) as [dd|]; [|done].
  unfold_M. destruct (decide (active_timer self = Some (ri, di))).
  - unfold_M. by destruct (_stop_timer ri di now self) as [[[]|?] ?].
  - destruct (active_timer self); [done|].
    by destruct (decide (Z.of_nat di ≠ weekday today)).
Qed.

Lemma open_timers_rows self self' :
  rows self' = rows self -> open_timers self' = open_timers self.
Proof. unfold open_timers. by intros ->. Qed.

Lemma get_day_rows self self' ri di :
  rows self' = rows self -> get_day self' ri di = get_day self ri di.
Proof. unfold get_day. by intros ->. Qed.

Lemma stop_finish_effect `{Runtime} now dd self r self' :
  stop_finish now dd self = (r, self') ->
  rows self' = rows self /\ data_store self' = data_store self /\
  ((self' = self /\ exists e, r = Raise e) \/
   (active_timer self' = None /\
    DATA_FILE self' = Document (json_roundtrip (out self)) /\
    is_Ok (DayData.total_hours now dd))).
Proof.
  unfold stop_finish. destruct (DayData.total_hours now dd) as [h|e].
  - intros [= <- <-]. repeat split; try done. right. repeat split; try done. by exists h.
  - intros [= <- <-]. repeat split; try done. left. split; [done|]. by exists e.
Qed.

Lemma get_day_close_cell ri di dd l t0 now self ri' di' :
  get_day self ri di = Some dd ->
  get_day (close_cell ri di dd l t0 now self) ri' di' =
  if decide (ri' = ri /\ di' = di) then Some (closed_day dd l t0 now)
  else get_day self ri' di'.
Proof.
  intros Hdd. unfold close_cell. rewrite !get_day_put_day.
  case_decide as Hd; [|done].
  rewrite decide_True by done. by rewrite Hdd.
Qed.

Lemma Idle_timer_inv self : Idle self -> timer_inv self.
Proof. intros [_ Hopen] p Hp. rewrite Hopen in Hp. inversion Hp. Qed.

Lemma timer_inv_at_most_one self :
  timer_inv self -> (length (open_timers self) <= 1)%nat.
Proof.
  intros Hinv. apply NoDup_all_equal_length; [apply NoDup_open_timers|].
  intros p q Hp Hq. apply Hinv in Hp, Hq. congruence.
Qed.

Lemma stop_timer_inv `{Runtime} ri di now self :
  timer_inv self -> active_timer self = Some (ri, di) ->
  timer_inv (snd (_stop_timer ri di now self)).
Proof.
  intros Hinv Hact. rewrite stop_timer_unfold.
  destruct (get_day self ri di) as [dd|] eqn:Hdd; [|done].
  assert (Hnone : forall s, (forall ri' di', (ri', di') ≠ (ri, di) ->
                               get_day s ri' di' = get_day self ri' di') ->
                            (forall d, get_day s ri di = Some d -> running_start d = None) ->
                            open_timers s = []).
  { intros s Hother Hcell. apply elem_of_nil_inv. intros [ri' di'] Hp.
    apply elem_of_open_timers in Hp as (d & Hd & Hrun).
    destruct (decide ((ri', di') = (ri, di))) as [[= -> ->]|Hne].
    - apply Hcell in Hd. rewrite Hd in Hrun. by destruct Hrun.
    - rewrite Hother in Hd by done.
      assert (Hin : (ri', di') ∈ open_timers self)
        by (apply elem_of_open_timers; eauto).
      apply Hinv in Hin. congruence. }
  assert (Hfin : forall d s, open_timers s = [] ->
                             timer_inv (snd (stop_finish now d s))).
  { intros d s Hs. destruct (stop_finish now d s) as [r s'] eqn:E.
    apply stop_finish_effect in E as (Hrows & _). simpl.
    intros p Hp. rewrite (open_timers_rows _ _ Hrows), Hs in Hp. inversion Hp. }
  destruct (running_start dd) as [t0|] eqn:Hrun.
  - destruct (sessions dd) eqn:Hs; try done. apply Hfin, Hnone.
    + intros ri' di' Hne. rewrite (get_day_close_cell _ _ _ _ _ _ _ _ _ Hdd).
      rewrite decide_False; [done|]. intros [-> ->]. done.
    + intros d. rewrite (get_day_close_cell _ _ _ _ _ _ _ _ _ Hdd).
      rewrite decide_True by done. by intros [= <-].
  - apply Hfin, Hnone; [done|]. intros d. rewrite Hdd. by intros [= <-].
Qed.

Lemma toggle_timer_inv `{Runtime} ri di today now self :
  timer_inv self -> timer_inv (snd (_toggle_timer ri di today now self)).
Proof.
  intros Hinv. rewrite toggle_timer_unfold.
  destruct (get_day self ri di) as [dd|] eqn:Hdd; [|done].
  case_decide as Hact.
  - pose proof (stop_timer_inv ri di now self Hinv Hact) as Hstop.
    by destruct (_stop_timer ri di now self) as [[[]|?] ?].
  - destruct (active_timer self) eqn:Hnone; [done|].
    case_decide; [done|]. cbn [snd].
    intros [ri' di'] Hp. unfold timer_inv in Hinv.
    erewrite open_timers_rows in Hp; [|apply rows_set_active_timer].
    apply elem_of_open_timers in Hp as (d & Hd & Hrun).
    rewrite get_day_put_day in Hd. case_decide as Hcell.
    + destruct Hcell as [-> ->]. done.
    + assert (Hin : (ri', di') ∈ open_timers self)
        by (apply elem_of_open_timers; eauto).
      apply Hinv in Hin. congruence.
Qed.

Lemma run_timer_inv `{Runtime} cs self :
  timer_inv self -> timer_inv (run cs self).
Proof.
  revert self. induction cs as [|c cs IH]; intros self Hinv; [done|].
  simpl. apply IH. by apply toggle_timer_inv.
Qed.

(** ** Single active timer *)

(** C1. After any sequence of clicks from an idle state, at most one cell of
    the loaded sheet has an open timer; and while a cell's timer is open, a
    click on any other cell of the sheet is answered with the "Active Timer"
    warning ([TimerBusyError]) and leaves the whole state as it was. *)
Theorem single_active_timer `{Runtime} (self : App) (cs : list click) :
  Idle self ->
  (length (open_timers (run cs self)) <= 1)%nat /\
  forall p ri di today now,
    p ∈ open_timers (run cs self) -> p ≠ (ri, di) ->
    is_Some (get_day (run cs self) ri di) ->
    _toggle_timer ri di today now (run cs self) = (Ok TimerBusyError, run cs self).
Proof.
  intros Hidle.
  pose proof (run_timer_inv cs self (Idle_timer_inv self Hidle)) as Hinv.
  split; [by apply timer_inv_at_most_one|].
  intros p ri di today now Hp Hne [dd Hdd].
  rewrite toggle_timer_unfold, Hdd. apply Hinv in Hp. rewrite Hp.
  rewrite decide_False; [done|]. congruence.
Qed.

Lemma single_active_timer_witness :
  Idle scenario_app /\
  (length (open_timers (@run exact_runtime [click_monday_0900] scenario_app)) <= 1)%nat /\
  @_toggle_timer exact_runtime 0 1 (date_of t0930) t0930
     (@run exact_runtime [click_monday_0900] scenario_app)
  = (Ok TimerBusyError, @run exact_runtime [click_monday_0900] scenario_app).
Proof.
  assert (Hidle : Idle scenario_app) by (split; reflexivity).
  destruct (@single_active_timer exact_runtime scenario_app [click_monday_0900] Hidle)
    as [Hone Hbusy].
  split; [exact Hidle|]. split; [exact Hone|].
  apply (Hbusy (0, 0)%nat).
  - vm_compute. left.
  - discriminate.
  - vm_compute. eauto.
Defined.

(** ** Continuity at stop *)

Lemma for_each_app {A B} (body : B -> A -> res B) acc (xs ys : list A) :
  for_each body acc (xs ++ ys) = (acc' ← for_each body acc xs; for_each body acc' ys).
Proof.
  revert acc. induction xs as [|x xs IH]; intros acc; simpl; [done|].
  unfold mbind, res_bind. destruct (body acc x) as [acc'|e]; [|done]. apply IH.
Qed.

Lemma add_session_written `{Runtime} total t0 t1 :
  fromisoformat (isoformat t0) = Some t0 ->
  fromisoformat (isoformat t1) = Some t1 ->
  DayData.add_session total (PTuple [PStr (isoformat t0); PStr (isoformat t1)])
  = Ok (num_add total (hours (sub t1 t0))).
Proof.
  intros H0 H1. unfold DayData.add_session, unpack2, DayData.parse; simpl.
  unfold mbind, res_bind; simpl. by rewrite H0, H1.
Qed.

Lemma total_hours_closed_day `{Runtime} dd l t0 t1 now :
  running_start dd = Some t0 -> sessions dd = PList l ->
  fromisoformat (isoformat t0) = Some t0 ->
  fromisoformat (isoformat t1) = Some t1 ->
  DayData.total_hours now (closed_day dd l t0 t1) = DayData.total_hours t1 dd.
Proof.
  intros Hrun Hs H0 H1. unfold DayData.total_hours, closed_day; simpl.
  rewrite Hrun, Hs; simpl. rewrite for_each_app.
  unfold mbind, res_bind.
  destruct (for_each DayData.add_session num_zero l) as [total|e]; [|done].
  simpl. unfold mbind, res_bind. by rewrite add_session_written.
Qed.

Lemma get_day_stop_finish `{Runtime} now dd self ri di :
  get_day (snd (stop_finish now dd self)) ri di = get_day self ri di.
Proof.
  destruct (stop_finish now dd self) as [r s'] eqn:E.
  apply stop_finish_effect in E as (Hrows & _). by apply get_day_rows.
Qed.

(** C2. For a day record of the sheet whose timer was started at [t0] and
    whose [sessions] is a list, the total computed at [t1] while the timer is
    open equals the total computed after [_stop_timer] closed it at [t1]: the
    record then holds the session [(t0, t1)], no open timer, and its total no
    longer depends on the clock. The two values are equal as computed, so
    they agree within every tolerance; they are the same exception when a
    stored session cannot be read. The two written instants are taken to be
    read back by [fromisoformat] as themselves. *)
Theorem continuity_at_stop `{Runtime} (self : App) (ri di : nat) (dd : DayData)
    (l : list pyval) (t0 t1 now' : datetime) :
  get_day self ri di = Some dd ->
  running_start dd = Some t0 ->
  sessions dd = PList l ->
  fromisoformat (isoformat t0) = Some t0 ->
  fromisoformat (isoformat t1) = Some t1 ->
  exists dd',
    get_day (snd (_stop_timer ri di t1 self)) ri di = Some dd' /\
    sessions dd' = PList (l ++ [PTuple [PStr (isoformat t0); PStr (isoformat t1)]]) /\
    running_start dd' = None /\
    DayData.total_hours now' dd' = DayData.total_hours t1 dd.
Proof.
  intros Hdd Hrun Hs H0 H1. exists (closed_day dd l t0 t1).
  rewrite stop_timer_unfold, Hdd, Hrun, Hs.
  rewrite get_day_stop_finish, (get_day_close_cell _ _ _ _ _ _ _ _ _ Hdd).
  rewrite decide_True by done. repeat split.
  by apply total_hours_closed_day.
Qed.

Lemma continuity_at_stop_witness :
  let R := exact_runtime in
  let self := run [click_monday_0900] scenario_app in
  exists dd',
    get_day (snd (_stop_timer 0 0 t1015 self)) 0 0 = Some dd' /\
    sessions dd' = PList [PTuple [PStr "2024-06-03T09:00:00"; PStr "2024-06-03T10:15:00"]] /\
    running_start dd' = None /\
    DayData.total_hours t0800 dd' = Ok (5 # 4)%Q.
Proof.
  intros R self.
  destruct (@continuity_at_stop R self 0 0
              (DayData.set_running_start (Some t0900) DayData.new) [] t0900 t1015 t0800)
    as (dd' & Hget & Hs & Hrun & Htot); try reflexivity.
  exists dd'. repeat split; assumption.
Defined.

(** ** Stopping: what is and is not rejected *)

(** C3, as the code has it. [_stop_timer] compares no instants: closing at
    [at_] with [at_ <= running_start] appends the session
    [(running_start, at_)] and clears [running_start], as at any other
    instant (for a day record of the sheet whose [sessions] is a list). *)
Theorem stop_backward_closes `{Runtime} (self : App) (ri di : nat) (dd : DayData)
    (l : list pyval) (t0 at_ : datetime) :
  get_day self ri di = Some dd ->
  running_start dd = Some t0 ->
  sessions dd = PList l ->
  leb at_ t0 = true ->
  get_day (snd (_stop_timer ri di at_ self)) ri di
  = Some (mkDayData (PList (l ++ [PTuple [PStr (isoformat t0); PStr (isoformat at_)]]))
                    (notes dd) None).
Proof.
  intros Hdd Hrun Hs _. rewrite stop_timer_unfold, Hdd, Hrun, Hs.
  rewrite get_day_stop_finish, (get_day_close_cell _ _ _ _ _ _ _ _ _ Hdd).
  by rewrite decide_True.
Qed.

Lemma stop_backward_closes_witness :
  let R := exact_runtime in
  let self := run [click_monday_0900] scenario_app in
  leb t0800 t0900 = true /\
  get_day (snd (_stop_timer 0 0 t0800 self)) 0 0
  = Some (mkDayData (PList [PTuple [PStr "2024-06-03T09:00:00"; PStr "2024-06-03T08:00:00"]])
                    (PStr "") None).
Proof.
  intros R self. split; [reflexivity|].
  apply (@stop_backward_closes R self 0 0
           (DayData.set_running_start (Some t0900) DayData.new) [] t0900 t0800);
    reflexivity.
Defined.

(** C3 fails on the code: the timer opened on Monday at 09:00 is stopped at
    08:00; the call returns normally, the timer is no longer running and the
    session 09:00..08:00 has been appended. *)
Lemma stop_backward_not_rejected :
  let R := exact_runtime in
  let self := run [click_monday_0900] scenario_app in
  leb t0800 t0900 = true /\
  (exists dd, get_day self 0 0 = Some dd /\ running_start dd = Some t0900) /\
  fst (_stop_timer 0 0 t0800 self) = Ok tt /\
  active_timer (snd (_stop_timer 0 0 t0800 self)) = None /\
  get_day (snd (_stop_timer 0 0 t0800 self)) 0 0
  = Some (mkDayData (PList [PTuple [PStr "2024-06-03T09:00:00"; PStr "2024-06-03T08:00:00"]])
                    (PStr "") None).
Proof.
  cbv zeta. split; [reflexivity|]. split; [eexists; split; reflexivity|].
  repeat split; vm_compute; reflexivity.
Qed.

Lemma Idle_cell_not_running self ri di dd :
  Idle self -> get_day self ri di = Some dd -> running_start dd = None.
Proof.
  intros [_ Hopen] Hdd. destruct (running_start dd) as [t|] eqn:Hrun; [|done].
  assert (Hin : (ri, di) ∈ open_timers self).
  { apply elem_of_open_timers. exists dd. split; [done|]. rewrite Hrun. by eexists. }
  rewrite Hopen in Hin. inversion Hin.
Qed.

(** C4, as the code has it. [_stop_timer] called while idle raises no
    [NotRunningError] and shows no warning: it skips the session, so the
    sheets (sessions and [running_start] fields) and the active timer stay as
    they were. For a cell that does not exist it raises [IndexError], and
    for a cell whose total cannot be computed it raises what computing it
    raises, in both cases with nothing changed. Otherwise it rewrites the
    data file from the store in memory, the write being taken to succeed,
    and then returns, or raises what the closing [_build_table] raises. *)
Theorem stop_while_idle `{Runtime} (self : App) (ri di : nat) (now : datetime) :
  Idle self ->
  data_store (snd (_stop_timer ri di now self)) = data_store self /\
  active_timer (snd (_stop_timer ri di now self)) = None /\
  (DATA_FILE (snd (_stop_timer ri di now self)) = DATA_FILE self \/
   DATA_FILE (snd (_stop_timer ri di now self)) = Document (json_roundtrip (out self))) /\
  (forall dd, get_day self ri di = Some dd ->
              is_Ok (DayData.total_hours now dd) ->
              DATA_FILE (snd (_stop_timer ri di now self))
              = Document (json_roundtrip (out self))) /\
  (get_day self ri di = None ->
   _stop_timer ri di now self = (Raise IndexError, self)) /\
  (forall dd e, get_day self ri di = Some dd ->
                DayData.total_hours now dd = Raise e ->
                _stop_timer ri di now self = (Raise e, self)) /\
  (forall dd, get_day self ri di = Some dd ->
              is_Ok (DayData.total_hours now dd) ->
              fst (_stop_timer ri di now self)
              = match _build_table now (snd (_stop_timer ri di now self)) with
                | Ok _ => Ok tt
                | Raise e => Raise e
                end).
Proof.
  intros Hidle. pose proof Hidle as [Hact _]. rewrite stop_timer_unfold.
  destruct (get_day self ri di) as [dd|] eqn:Hdd; simpl.
  - rewrite (Idle_cell_not_running self ri di dd Hidle Hdd).
    destruct (stop_finish now dd self) as [r s'] eqn:E. simpl.
    pose proof E as E'. apply stop_finish_effect in E' as (_ & Hds & Hcases).
    split; [done|].
    assert (Hraise : forall e, DayData.total_hours now dd = Raise e -> (r, s') = (Raise e, self)).
    { intros e He. unfold stop_finish in E. by rewrite He in E. }
    assert (Hres : is_Ok (DayData.total_hours now dd) ->
                   r = match _build_table now s' with Ok _ => Ok tt | Raise e => Raise e end).
    { intros [h Hh]. unfold stop_finish in E. rewrite Hh in E. cbv zeta in E.
      by injection E as <- <-. }
    destruct Hcases as [[-> [e ->]]|(Hnone & Hfile & _)].
    + split; [done|]. split; [by left|]. split.
      { intros d [= <-] [h Hh]. unfold stop_finish in E. rewrite Hh in E. by inversion E. }
      split; [done|]. split.
      * intros d e' [= <-] He'. by apply Hraise.
      * intros d [= <-] Hok. by apply Hres.
    + split; [done|]. split; [by right|]. split; [done|]. split; [done|]. split.
      * intros d e' [= <-] He'. by apply Hraise.
      * intros d [= <-] Hok. by apply Hres.
  - repeat split; try done. by left.
Qed.

Lemma stop_while_idle_witness :
  let R := exact_runtime in
  Idle scenario_app /\
  data_store (snd (_stop_timer 0 0 t0900 scenario_app)) = data_store scenario_app /\
  active_timer (snd (_stop_timer 0 0 t0900 scenario_app)) = None /\
  DATA_FILE (snd (_stop_timer 0 0 t0900 scenario_app))
  = Document (json_roundtrip (out scenario_app)).
Proof.
  intros R.
  assert (Hidle : Idle scenario_app) by (split; reflexivity).
  destruct (@stop_while_idle R scenario_app 0 0 t0900 Hidle) as (Hds & Hact & _ & Hfile & _).
  split; [exact Hidle|]. split; [exact Hds|]. split; [exact Hact|].
  apply (Hfile DayData.new); [reflexivity|]. exists 0%Q. reflexivity.
Defined.

(** C4 fails on the code: the application has loaded a file whose days
    carry no notes and is idle; [_stop_timer] on Monday's cell returns
    normally instead of rejecting the call, and the data file is no longer
    what it was: it has been rewritten, notes included. *)
Lemma stop_while_idle_not_rejected :
  let R := exact_runtime in
  let self := init "A" (mkdate 2024 6 3) file_without_notes in
  Idle self /\
  fst (_stop_timer 0 0 t0900 self) = Ok tt /\
  DATA_FILE self = file_without_notes /\
  DATA_FILE (snd (_stop_timer 0 0 t0900 self))
  = Document (PDict [("A::2024-06-03",
      PList [PDict [("task", PStr "Meeting"); ("subtask", PStr "Meeting");
                    ("days", PList (replicate 7
                       (PDict [("sessions", PList []); ("notes", PStr "")])))]])]) /\
  DATA_FILE (snd (_stop_timer 0 0 t0900 self)) ≠ DATA_FILE self.
Proof.
  cbv zeta. split; [split; reflexivity|].
  repeat split; try (vm_compute; reflexivity). vm_compute. discriminate.
Qed.

(** ** Today-only start *)

(** C8, as the code has it. With no active timer, a click on a cell of the
    sheet starts its timer exactly when the cell's weekday is the weekday of
    [date.today()]: then [running_start] is set to the clock's reading and the
    cell becomes the active timer; otherwise the click is answered with the
    "Invalid" warning ([WrongDayError]) and nothing changes. *)
Theorem today_only_start `{Runtime} (self : App) (ri di : nat) (dd : DayData)
    (today : date) (now : datetime) :
  active_timer self = None ->
  get_day self ri di = Some dd ->
  (fst (_toggle_timer ri di today now self) = Ok Started <-> Z.of_nat di = weekday today) /\
  (Z.of_nat di = weekday today ->
     active_timer (snd (_toggle_timer ri di today now self)) = Some (ri, di) /\
     get_day (snd (_toggle_timer ri di today now self)) ri di
     = Some (DayData.set_running_start (Some now) dd)) /\
  (Z.of_nat di ≠ weekday today ->
     _toggle_timer ri di today now self = (Ok WrongDayError, self)).
Proof.
  intros Hact Hdd. rewrite toggle_timer_unfold, Hdd, Hact.
  rewrite decide_False by done.
  destruct (decide (Z.of_nat di ≠ weekday today)) as [Hne|Heq]; cbn [fst snd].
  - repeat split; try done.
  - apply dec_stable in Heq. repeat split; try done.
    erewrite get_day_rows by apply rows_set_active_timer.
    rewrite get_day_put_day, decide_True by done. by rewrite Hdd.
Qed.

Lemma today_only_start_witness :
  let R := exact_runtime in
  (fst (_toggle_timer 0 0 (date_of t0900) t0900 scenario_app) = Ok Started
   <-> 0 = weekday (date_of t0900)) /\
  _toggle_timer 0 4 (date_of t0900) t0900 scenario_app = (Ok WrongDayError, scenario_app).
Proof.
  intros R.
  destruct (@today_only_start R scenario_app 0 0 DayData.new (date_of t0900) t0900
              eq_refl eq_refl) as (Hiff & _ & _).
  destruct (@today_only_start R scenario_app 0 4 DayData.new (date_of t0900) t0900
              eq_refl eq_refl) as (_ & _ & Hwrong).
  split; [exact Hiff|]. apply Hwrong. discriminate.
Defined.

(** C8 fails on the code as stated: on Monday, with the timer of the first
    task running, a click on Monday's cell of the second task does not start
    a timer although the weekday is today's; the answer is the "Active Timer"
    warning, as it is for Friday's cell, which is not answered with the
    "Invalid" warning. *)
Lemma start_today_while_busy :
  let R := exact_runtime in
  let self := run [click_monday_0900] two_task_app in
  Z.of_nat 0 = weekday (date_of t0930) /\
  _toggle_timer 1 0 (date_of t0930) t0930 self = (Ok TimerBusyError, self) /\
  _toggle_timer 1 4 (date_of t0930) t0930 self = (Ok TimerBusyError, self) /\
  TimerBusyError ≠ Started /\ TimerBusyError ≠ WrongDayError.
Proof.
  cbv zeta. split; [reflexivity|]. repeat split; try (vm_compute; reflexivity); discriminate.
Qed.

(** ** The store *)

Lemma set_data_store_id self : set_data_store (data_store self) self = self.
Proof. by destruct self. Qed.

Lemma load_loop kvs self :
  let body := fun '(key, rws) =>
    rs ← lift (load_rows rws);
    modify (fun self => set_data_store (<[key := rs]> (data_store self)) self) in
  match list_comp (fun kv => rs ← load_rows (snd kv); Ok (fst kv, rs)) kvs with
  | Ok l => for_in kvs body self = (Ok tt, set_data_store (insert_all l (data_store self)) self)
  | Raise e => exists ds', for_in kvs body self = (Raise e, set_data_store ds' self)
  end.
Proof.
  intros body. revert self. induction kvs as [|[key rws] kvs IH]; intros self; simpl.
  - by rewrite set_data_store_id.
  - destruct (load_rows rws) as [rs|e].
    + specialize (IH (set_data_store (<[key:=rs]> (data_store self)) self)). revert IH.
      unfold mbind, res_bind, M_bind, lift, modify; simpl.
      destruct (list_comp _ kvs) as [l|e']; simpl; [done|].
      intros [ds' ->]. by exists ds'.
    + unfold mbind, res_bind, M_bind, lift, modify; simpl.
      exists (data_store self). by rewrite set_data_store_id.
Qed.

Lemma M_bind_unfold {A B} (m : M A) (f : A -> M B) self :
  (m ≫= f) self = match m self with
                  | (Ok a, self') => f a self'
                  | (Raise e, self') => (Raise e, self')
                  end.
Proof. reflexivity. Qed.

Lemma load_data_unfold self :
  _load_data self =
  (Ok tt,
   match DATA_FILE self with
   | NoFile => self
   | Unreadable => set_data_store ∅ self
   | Document raw =>
       match parse_store raw with
       | Ok l => set_data_store (insert_all l (data_store self)) self
       | Raise _ => set_data_store ∅ self
       end
   end).
Proof.
  unfold _load_data. rewrite M_bind_unfold. unfold gets at 1. unfold path_exists.
  unfold try_except.
  destruct (DATA_FILE self) as [| |raw] eqn:Hf; [done| |]; cbv beta;
    rewrite M_bind_unfold; unfold json_load at 1; rewrite Hf; [done|].
  rewrite M_bind_unfold. unfold lift at 1. unfold parse_store.
  destruct (items raw) as [kvs|e]; simpl; [|done].
  pose proof (load_loop kvs self) as Hloop. simpl in Hloop.
  destruct (list_comp _ kvs) as [l|e].
  - by rewrite Hloop.
  - destruct Hloop as [ds' ->]. done.
Qed.

Lemma data_store_init emp monday f :
  data_store (init emp monday f) = loaded_store f.
Proof.
  unfold init, loaded_store. rewrite load_data_unfold. simpl.
  destruct f as [| |raw]; try done. by destruct (parse_store raw).
Qed.

Lemma lookup_insert_all l store k :
  is_Some (insert_all l store !! k) <-> k ∈ map fst l \/ is_Some (store !! k).
Proof.
  unfold insert_all. revert store. induction l as [|[k' v] l IH]; intros store; simpl.
  - split; [by right|]. intros [Hin|]; [inversion Hin|done].
  - rewrite IH, lookup_insert_is_Some, elem_of_cons. clear IH.
    destruct (decide (k' = k)) as [->|Hne].
    + split; intros _; [by left; left|by right; left].
    + assert (k ≠ k') by congruence. tauto.
Qed.

Lemma list_comp_Ok {A B} (f : A -> res B) xs ys :
  list_comp f xs = Ok ys <-> Forall2 (fun x y => f x = Ok y) xs ys.
Proof.
  revert ys. induction xs as [|x xs IH]; intros ys; simpl.
  - split; [intros [= <-]; constructor|by intros ->%Forall2_nil_inv_l].
  - unfold mbind, res_bind. destruct (f x) as [y|e] eqn:Hx.
    + destruct (list_comp f xs) as [ys'|e] eqn:Hxs.
      * split.
        -- intros [= <-]. constructor; [done|]. by apply IH.
        -- intros (y' & ys'' & Hy & Hys & ->)%Forall2_cons_inv_l.
           apply IH in Hys. congruence.
      * split; [done|].
        intros (y' & ys'' & _ & Hys & ->)%Forall2_cons_inv_l. by apply IH in Hys.
    + split; [done|].
      intros (y' & ys'' & Hy & _ & ->)%Forall2_cons_inv_l. congruence.
Qed.

Lemma list_comp_map {A B C} (f : B -> res C) (g : A -> B) xs :
  list_comp f (map g xs) = list_comp (fun x => f (g x)) xs.
Proof. induction xs as [|x xs IH]; simpl; [done|]. by rewrite IH. Qed.

Lemma list_comp_total {A B} (f : A -> res B) (g : A -> B) xs :
  (forall x, f x = Ok (g x)) -> list_comp f xs = Ok (map g xs).
Proof.
  intros Hf. induction xs as [|x xs IH]; simpl; [done|].
  rewrite Hf, IH. reflexivity.
Qed.

Lemma from_dict_not_running raw dd :
  DayData.from_dict raw = Ok dd -> running_start dd = None.
Proof.
  unfold DayData.from_dict, get. destruct raw; try done.
  unfold mbind, res_bind; simpl. by intros [= <-].
Qed.

Lemma row_from_dict_not_running raw r :
  TaskRowData.from_dict raw = Ok r -> Forall (fun d => running_start d = None) (days r).
Proof.
  unfold TaskRowData.from_dict. unfold mbind, res_bind.
  destruct (getitem raw "task"); [|done]. destruct (getitem raw "subtask"); [|done].
  destruct (get raw "days" (PList [])) as [ds|]; [|done].
  destruct (iter ds) as [dds|]; [|done].
  destruct (list_comp DayData.from_dict dds) as [ds'|] eqn:Hds; [|done].
  intros [= <-]. simpl. apply list_comp_Ok in Hds.
  induction Hds as [|x y xs ys Hxy _ IH]; constructor; [|done].
  by eapply from_dict_not_running.
Qed.

Lemma load_rows_not_running rws rs :
  load_rows rws = Ok rs -> no_open_timer rs.
Proof.
  unfold load_rows. unfold mbind, res_bind. destruct (iter rws) as [r|]; [|done].
  intros Hrs%list_comp_Ok. unfold no_open_timer.
  induction Hrs as [|x y xs ys Hxy _ IH]; constructor; [|done].
  by eapply row_from_dict_not_running.
Qed.

Lemma insert_all_not_running l store :
  Forall (fun kv => no_open_timer (snd kv)) l ->
  map_Forall (fun _ rs => no_open_timer rs) store ->
  map_Forall (fun _ rs => no_open_timer rs) (insert_all l store).
Proof.
  unfold insert_all. revert store.
  induction l as [|[k rs] l IH]; intros store Hl Hstore; simpl; [done|].
  inversion Hl as [|? ? Hrs Hl']; subst. apply IH; [done|].
  by apply map_Forall_insert_2.
Qed.

Lemma loaded_store_not_running f :
  map_Forall (fun _ rs => no_open_timer rs) (loaded_store f).
Proof.
  unfold loaded_store. destruct f as [| |raw]; try apply map_Forall_empty.
  destruct (parse_store raw) as [l|] eqn:Hl; [|apply map_Forall_empty].
  apply insert_all_not_running; [|apply map_Forall_empty].
  unfold parse_store in Hl. unfold mbind at 1, res_bind at 1 in Hl.
  destruct (items raw) as [kvs|]; [|done]. apply list_comp_Ok in Hl.
  induction Hl as [|kv y xs ys Hxy _ IH]; constructor; [|done].
  unfold mbind, res_bind in Hxy. destruct (load_rows (snd kv)) as [rs|] eqn:Hrs; [|done].
  inversion Hxy; subst; simpl. by eapply load_rows_not_running.
Qed.

(** *** Through JSON and back *)

Lemma chars_json_roundtrip s : map json_roundtrip (chars s) = chars s.
Proof. unfold chars. rewrite map_map. done. Qed.

Lemma iter_json_roundtrip v :
  iter (json_roundtrip v) = map json_roundtrip <$> iter v.
Proof.
  destruct v as [| | | |s|l|l|kvs]; simpl; try done.
  - by rewrite chars_json_roundtrip.
  - by rewrite !map_map.
Qed.

Lemma unpack2_json_roundtrip v :
  unpack2 (json_roundtrip v)
  = (fun p => (json_roundtrip (fst p), json_roundtrip (snd p))) <$> unpack2 v.
Proof.
  unfold unpack2. rewrite iter_json_roundtrip.
  destruct (iter v) as [[|a [|b [|c l]]]|e]; done.
Qed.

Lemma session_pairs_json_roundtrip v :
  session_pairs (json_roundtrip v)
  = map (fun p => (json_roundtrip (fst p), json_roundtrip (snd p))) <$> session_pairs v.
Proof.
  unfold session_pairs. rewrite iter_json_roundtrip.
  destruct (iter v) as [its|e]; simpl; [|done].
  unfold mbind, res_bind. induction its as [|x its IH]; simpl; [done|].
  rewrite unpack2_json_roundtrip. unfold mbind, res_bind.
  destruct (unpack2 x) as [p|e]; simpl; [|done].
  rewrite IH. by destruct (list_comp unpack2 its).
Qed.

Lemma parse_json_roundtrip `{Runtime} v :
  DayData.parse (json_roundtrip v) = DayData.parse v.
Proof. by destruct v. Qed.

Lemma add_session_json_roundtrip `{Runtime} total item :
  DayData.add_session total (json_roundtrip item) = DayData.add_session total item.
Proof.
  unfold DayData.add_session. rewrite unpack2_json_roundtrip.
  destruct (unpack2 item) as [[a b]|e]; simpl; [|done].
  unfold mbind, res_bind. by rewrite !parse_json_roundtrip.
Qed.

Lemma total_hours_persisted_day `{Runtime} now d :
  DayData.total_hours now (persisted_day d)
  = DayData.total_hours now (DayData.set_running_start None d).
Proof.
  unfold DayData.total_hours; simpl. rewrite iter_json_roundtrip.
  destruct (iter (sessions d)) as [its|e]; simpl; [|done].
  unfold mbind, res_bind.
  assert (Hloop : forall z, for_each DayData.add_session z (map json_roundtrip its)
                            = for_each DayData.add_session z its).
  { induction its as [|x its IH]; intros z; simpl; [done|].
    rewrite add_session_json_roundtrip. unfold mbind, res_bind.
    by destruct (DayData.add_session z x). }
  by rewrite Hloop.
Qed.

Lemma day_from_dict_to_dict d :
  DayData.from_dict (json_roundtrip (DayData.to_dict d)) = Ok (persisted_day d).
Proof. reflexivity. Qed.

Lemma row_from_dict_to_dict r :
  TaskRowData.from_dict (json_roundtrip (TaskRowData.to_dict r)) = Ok (persisted_row r).
Proof.
  unfold TaskRowData.from_dict, TaskRowData.to_dict; simpl.
  rewrite !list_comp_map.
  rewrite (list_comp_total _ persisted_day); [done|]. apply day_from_dict_to_dict.
Qed.

Lemma load_rows_saved rs :
  load_rows (json_roundtrip (PList (map TaskRowData.to_dict rs))) = Ok (map persisted_row rs).
Proof.
  unfold load_rows; simpl. rewrite !list_comp_map.
  rewrite (list_comp_total _ persisted_row); [done|]. apply row_from_dict_to_dict.
Qed.

Lemma parse_store_saved self :
  parse_store (json_roundtrip (out self))
  = Ok (prod_map id (map persisted_row) <$> map_to_list (data_store self)).
Proof.
  unfold parse_store, out; simpl. rewrite !list_comp_map.
  apply list_comp_total. intros [k rs]; simpl.
  change (PList (map json_roundtrip (map TaskRowData.to_dict rs)))
    with (json_roundtrip (PList (map TaskRowData.to_dict rs))).
  by rewrite load_rows_saved.
Qed.

Lemma insert_all_NoDup l store :
  NoDup (map fst l) -> insert_all l store = list_to_map l ∪ store.
Proof.
  unfold insert_all. revert store. induction l as [|[k v] l IH]; intros store Hnd; simpl.
  - by rewrite (left_id_L ∅ (∪)).
  - apply list.NoDup_cons in Hnd as [Hk Hnd]. rewrite IH by done.
    rewrite <-insert_union_l, <-insert_union_r; [done|].
    by apply not_elem_of_list_to_map_1.
Qed.

Lemma loaded_store_saved self :
  loaded_store (DATA_FILE (snd (_save_data self))) = map persisted_row <$> data_store self.
Proof.
  unfold _save_data, modify, loaded_store. cbn [snd DATA_FILE set_DATA_FILE].
  rewrite parse_store_saved.
  rewrite insert_all_NoDup.
  - rewrite (right_id_L ∅ (∪)), list_to_map_fmap. by rewrite list_to_map_to_list.
  - rewrite <-list_fmap_compose.
    replace (fst ∘ prod_map id (map persisted_row)) with (@fst string (list TaskRowData));
      [apply NoDup_fst_map_to_list|].
    done.
Qed.

(** C6. Saving a store and loading the file into a fresh application gives
    back the same keys, each with the same entries in the same order: the
    task, the subtask, the notes and the sessions of every day are the saved
    ones as JSON returns them, and [running_start] is left out. JSON returns
    a string as itself and a tuple as the list of its items, so the start
    and end of every session, and every total computed from them, are the
    same. *)
Theorem store_round_trip `{Runtime} (self : App) (emp : string) (monday : date) :
  data_store (init emp monday (DATA_FILE (snd (_save_data self))))
  = map persisted_row <$> data_store self
  /\ (forall s, json_roundtrip (PStr s) = PStr s)
  /\ (forall d, session_pairs (sessions (persisted_day d))
                = map (fun p => (json_roundtrip (fst p), json_roundtrip (snd p)))
                  <$> session_pairs (sessions d))
  /\ (forall d now, DayData.total_hours now (persisted_day d)
                    = DayData.total_hours now (DayData.set_running_start None d)).
Proof.
  split; [by rewrite data_store_init, loaded_store_saved|].
  split; [done|]. split.
  - intros d. apply session_pairs_json_roundtrip.
  - intros d now. apply total_hours_persisted_day.
Qed.

(** C9. [_load_data] in a fresh application never raises, and the store it
    leaves is all or nothing: when the file is missing, cannot be read as
    JSON, or holds a document of which some sheet cannot be built, the store
    is empty; otherwise it holds every key of the document. *)
Theorem load_all_or_nothing (emp : string) (monday : date) (f : file_state) :
  fst (_load_data (mkApp ∅ emp monday None f)) = Ok tt
  /\ data_store (snd (_load_data (mkApp ∅ emp monday None f))) = loaded_store f
  /\ (f = NoFile \/ f = Unreadable \/ (exists raw e, f = Document raw /\ parse_store raw = Raise e)
      -> loaded_store f = ∅)
  /\ (forall raw l, f = Document raw -> parse_store raw = Ok l ->
        forall key, is_Some (loaded_store f !! key) <-> key ∈ map fst l).
Proof.
  split; [by rewrite load_data_unfold|].
  split; [apply (data_store_init emp monday f)|].
  split.
  - intros [->|[->|(raw & e & -> & Hraw)]]; try done. unfold loaded_store. by rewrite Hraw.
  - intros raw l -> Hl key. unfold loaded_store. rewrite Hl, lookup_insert_all.
    rewrite lookup_empty. split; [intros [?|[? ?]]; done|by left].
Qed.

(** C10. A save writes no [running_start] ([to_dict] gives the keys
    [sessions] and [notes], whatever the timer), [from_dict] builds records
    with no open timer, and so does [_load_data]: in a fresh application, from
    any file, and in particular from the file a save has just written, no day
    of any sheet of the store has an open timer. *)
Theorem open_timer_discarded :
  (forall d, DayData.to_dict d = PDict [("sessions", sessions d); ("notes", notes d)])
  /\ (forall d t, DayData.to_dict (DayData.set_running_start t d) = DayData.to_dict d)
  /\ (forall raw dd, DayData.from_dict raw = Ok dd -> running_start dd = None)
  /\ (forall emp monday f,
        map_Forall (fun _ rs => no_open_timer rs) (data_store (init emp monday f)))
  /\ (forall self emp monday,
        map_Forall (fun _ rs => no_open_timer rs)
          (data_store (init emp monday (DATA_FILE (snd (_save_data self))))))
  /\ (forall emp monday f, open_timers (init emp monday f) = []).
Proof.
  split; [done|]. split; [done|]. split; [apply from_dict_not_running|].
  assert (Hload : forall emp monday f,
            map_Forall (fun _ rs => no_open_timer rs) (data_store (init emp monday f))).
  { intros emp monday f. rewrite data_store_init. apply loaded_store_not_running. }
  split; [done|]. split; [intros; apply Hload|].
  intros emp monday f. apply elem_of_nil_inv. intros [ri di] Hp.
  apply elem_of_open_timers in Hp as (dd & Hdd & [t Ht]).
  unfold get_day, rows in Hdd.
  destruct (data_store (init emp monday f) !! _data_key (init emp monday f)) as [rs|] eqn:Hrs;
    simpl in Hdd; [|done].
  apply Hload in Hrs.
  destruct (rs !! ri) as [r|] eqn:Hr; simpl in Hdd; [|done].
  eapply Forall_lookup_1 in Hrs; [|done].
  eapply Forall_lookup_1 in Hrs; [|done]. simpl in Hrs. congruence.
Qed.

(** ** Missing fields *)

Lemma day_from_dict_missing_notes kvs :
  assoc "notes" kvs = None ->
  DayData.from_dict (PDict kvs)
  = Ok (mkDayData (default (PList []) (assoc "sessions" kvs)) (PStr "") None).
Proof. intros Hn. unfold DayData.from_dict; simpl. by rewrite Hn. Qed.

Lemma row_from_dict_missing_days kvs t s :
  assoc "task" kvs = Some t -> assoc "subtask" kvs = Some s -> assoc "days" kvs = None ->
  TaskRowData.from_dict (PDict kvs) = Ok (mkTaskRowData t s []).
Proof. intros Ht Hs Hd. unfold TaskRowData.from_dict; simpl. by rewrite Ht, Hs, Hd. Qed.

(** C5 on the code. A day without ["notes"] is read with empty notes. An
    entry without ["days"] is read with no day at all, where
    [TaskRowData(task, subtask)] makes seven: loaded from a file, such an
    entry makes [_build_table] and a click on its Monday cell raise
    [IndexError]. *)
Theorem from_dict_missing_fields :
  DayData.from_dict (PDict [("sessions", PList [])]) = Ok DayData.new
  /\ TaskRowData.from_dict (PDict [("task", PStr "Meeting"); ("subtask", PStr "Meeting")])
     = Ok (mkTaskRowData (PStr "Meeting") (PStr "Meeting") [])
  /\ length (days (TaskRowData.new (PStr "Meeting") (PStr "Meeting"))) = 7%nat
  /\ rows (init "A" (mkdate 2024 6 3) file_without_days)
     = [mkTaskRowData (PStr "Meeting") (PStr "Meeting") []]
  /\ @_build_table exact_runtime t0900 (init "A" (mkdate 2024 6 3) file_without_days)
     = Raise IndexError
  /\ fst (@_toggle_timer exact_runtime 0 0 (date_of t0900) t0900
            (init "A" (mkdate 2024 6 3) file_without_days))
     = Raise IndexError.
Proof. repeat split; vm_compute; reflexivity. Qed.

(** ** Aggregation *)

Lemma row_total_hours_table `{Runtime} now r hs :
  Forall2 (fun d h => DayData.total_hours now d = Ok h) (days r) hs ->
  TaskRowData.total_hours now r = Ok (spec_totalHours hs).
Proof.
  intros Hhs%list_comp_Ok. unfold TaskRowData.total_hours. by rewrite Hhs.
Qed.

Lemma week_total_table `{Runtime} now self hss :
  hours_table now self hss -> week_total now self = Ok (spec_weeklyTotal hss).
Proof.
  intros Htab. unfold week_total, spec_weeklyTotal.
  assert (Hl : list_comp (TaskRowData.total_hours now) (rows self)
               = Ok (map spec_totalHours hss)).
  { apply list_comp_Ok. apply Forall2_fmap_r.
    eapply list.Forall2_impl; [exact Htab|]. intros r hs Hr. by apply row_total_hours_table. }
  by rewrite Hl.
Qed.

Lemma total_day_table `{Runtime} now self hss di :
  hours_table now self hss -> Forall (fun hs => (di < length hs)%nat) hss ->
  total_day now self di = Ok (spec_dailyTotal hss di).
Proof.
  intros Htab Hlen. unfold total_day, spec_dailyTotal.
  assert (Hl : list_comp (fun r => dd ← index (days r) di; DayData.total_hours now dd)
                         (rows self)
               = Ok (map (fun hs => nth di hs num_zero) hss)).
  { apply list_comp_Ok. apply Forall2_fmap_r. unfold hours_table in Htab.
    induction Htab as [|r hs rs hss' Hr _ IH]; [constructor|].
    inversion Hlen as [|? ? Hdi Hlen']; subst. constructor; [|by apply IH].
    destruct (lookup_lt_is_Some_2 hs di Hdi) as [h Hh].
    destruct (Forall2_lookup_r _ _ _ _ _ Hr Hh) as (dd & Hdd & Htot).
    unfold index. rewrite Hdd. simpl. rewrite Htot. f_equal.
    symmetry. by apply nth_lookup_Some. }
  by rewrite Hl.
Qed.

(** C7. Let [hss] be the hours of the days of the loaded sheet at the instant
    [now], entry by entry. Then the total of every entry is the sum of the
    hours of its days, the week total ([_update_week_total], and the one of
    [_add_total_row]) is the sum of the totals of the entries, and, the
    entries having seven days each, the daily total of every weekday is the
    sum over the entries of that weekday's hours; the code computes exactly
    these values. *)
Theorem aggregation_additivity `{Runtime} (now : datetime) (self : App)
    (hss : list (list num)) :
  hours_table now self hss ->
  Forall (fun hs => length hs = 7%nat) hss ->
  Forall2 (fun r hs => TaskRowData.total_hours now r = Ok (spec_totalHours hs))
          (rows self) hss
  /\ _update_week_total now self = Ok (spec_weeklyTotal hss)
  /\ (forall di, (di < 7)%nat -> total_day now self di = Ok (spec_dailyTotal hss di))
  /\ _add_total_row now self
     = Ok (if rows self is [] then None
           else Some (map (spec_dailyTotal hss) (seq 0 7), spec_weeklyTotal hss)).
Proof.
  intros Htab H7.
  assert (Hday : forall di, (di < 7)%nat ->
                            total_day now self di = Ok (spec_dailyTotal hss di)).
  { intros di Hdi. apply total_day_table; [done|].
    eapply list.Forall_impl; [exact H7|]. simpl. intros hs ->. done. }
  split; [|split; [by apply week_total_table|split; [done|]]].
  - eapply list.Forall2_impl; [exact Htab|]. intros r hs Hr. by apply row_total_hours_table.
  - unfold _add_total_row. destruct (rows self) as [|r rs] eqn:Hrows; [done|].
    assert (Hl : list_comp (total_day now self) (seq 0 7)
                 = Ok (map (spec_dailyTotal hss) (seq 0 7))).
    { apply list_comp_Ok. apply Forall2_fmap_r, Forall_Forall2_diag.
      apply list.Forall_forall. intros di Hdi%elem_of_seq. apply Hday. lia. }
    rewrite Hl. simpl. unfold mbind, res_bind. by rewrite (week_total_table now self hss).
Qed.

Lemma aggregation_additivity_witness :
  let R := exact_runtime in
  let self := run [click_monday_0900] scenario_app in
  let hss := [[(1 # 2)%Q; 0%Q; 0%Q; 0%Q; 0%Q; 0%Q; 0%Q]] in
  hours_table t0930 self hss /\
  _update_week_total t0930 self = Ok (1 # 2)%Q /\
  total_day t0930 self 0 = Ok (1 # 2)%Q /\
  _add_total_row t0930 self
  = Ok (Some ([(1 # 2)%Q; 0%Q; 0%Q; 0%Q; 0%Q; 0%Q; 0%Q], (1 # 2)%Q)).
Proof.
  intros R self hss.
  assert (Htab : hours_table t0930 self hss).
  { repeat constructor. }
  assert (H7 : Forall (fun hs : list Q => length hs = 7%nat) hss).
  { repeat constructor. }
  destruct (@aggregation_additivity R t0930 self hss Htab H7) as (_ & Hweek & Hday & Hrow).
  split; [exact Htab|]. split; [exact Hweek|]. split; [apply (Hday 0%nat); lia|exact Hrow].
Defined.

(** ** Written instants are read back *)

Lemma digit_val_digit n : digit_val (digit n) = Some (n mod 10).
Proof.
  unfold digit_val, digit.
  pose proof (Z.mod_pos_bound n 10 ltac:(lia)) as Hm.
  rewrite nat_ascii_embedding by lia.
  rewrite Nat2Z.inj_add, Z2Nat.id by lia.
  replace (48 <=? Z.of_nat 48 + n mod 10) with true by (symmetry; apply Z.leb_le; lia).
  replace (Z.of_nat 48 + n mod 10 <=? 57) with true by (symmetry; apply Z.leb_le; lia).
  simpl. f_equal. lia.
Qed.

Lemma read_digits_zfill_then w k acc m s :
  0 <= m < 10 ^ Z.of_nat w ->
  read_digits (w + k) acc (zfill w m s) = read_digits k (acc * 10 ^ Z.of_nat w + m) s.
Proof.
  revert k m s. induction w as [|w IH]; intros k m s Hm.
  - simpl in *. f_equal. lia.
  - rewrite Nat2Z.inj_succ, Z.pow_succ_r in Hm by lia.
    cbn [zfill]. replace (S w + k)%nat with (w + S k)%nat by lia.
    rewrite IH by (split; [apply Z.div_pos; lia|apply Z.div_lt_upper_bound; lia]).
    cbn [read_digits]. rewrite digit_val_digit. cbn [mbind option_bind].
    f_equal. rewrite Nat2Z.inj_succ, Z.pow_succ_r by lia.
    pose proof (Z.div_mod m 10 ltac:(lia)). lia.
Qed.

Lemma read_digits_zfill w m s :
  0 <= m < 10 ^ Z.of_nat w -> read_digits w 0 (zfill w m s) = Some (m, s).
Proof.
  intros Hm. pose proof (read_digits_zfill_then w 0 0 m s Hm) as H.
  by rewrite Nat.add_0_r in H.
Qed.

Lemma in_range_valid t : valid t -> in_range t = true.
Proof.
  intros (Hy & Hm & Hd & Hh & Hmi & Hs & _). unfold in_range.
  repeat (apply andb_true_intro; split); first [apply Z.leb_le|apply Z.ltb_lt]; lia.
Qed.

Lemma expect_app c s : expect c (String c "" +:+ s) = Some s.
Proof. simpl. by rewrite Ascii.eqb_refl. Qed.

(** [fromisoformat_written] reads every valid instant back from what
    [isoformat] writes. *)
Lemma fromisoformat_written_isoformat t :
  valid t -> fromisoformat_written (isoformat t) = Some t.
Proof.
  intros Hv. pose proof (in_range_valid t Hv) as Hr.
  destruct Hv as (Hy & Hm & Hd & Hh & Hmi & Hs & Hus).
  assert (Hdim : days_in_month (year t) (month t) <= 31).
  { unfold days_in_month. destruct (_ && _); [lia|].
    assert (Hcases : month t = 1 \/ month t = 2 \/ month t = 3 \/ month t = 4 \/
                     month t = 5 \/ month t = 6 \/ month t = 7 \/ month t = 8 \/
                     month t = 9 \/ month t = 10 \/ month t = 11 \/ month t = 12) by lia.
    repeat (destruct Hcases as [->|Hcases]; [simpl; lia|]). rewrite Hcases. simpl. lia. }
  destruct t as [y mo d h mi se us]; simpl in *.
  unfold fromisoformat_written, isoformat; cbn [year month day hour minute second microsecond].
  repeat (rewrite read_digits_zfill by (simpl; lia); cbn [mbind option_bind];
          try rewrite expect_app; cbn [mbind option_bind]).
  destruct (Z.eqb_spec us 0) as [->|Hne].
  - cbn [mbind option_bind]. by rewrite Hr.
  - rewrite expect_app. cbn [mbind option_bind].
    rewrite read_digits_zfill by (simpl; lia).
    change ("." +:+ zfill 6 us "") with (String "." (zfill 6 us "")).
    cbv beta iota delta [mbind option_bind]. by rewrite Hr.
Qed.

(** ** The calendar *)

Lemma month_day_checked leap n : 0 <= n < 365 -> month_day_ok leap n = true.
Proof.
  intros Hn.
  assert (H : forallb (fun k => month_day_ok leap (Z.of_nat k)) (seq 0 365) = true)
    by (destruct leap; vm_compute; reflexivity).
  rewrite forallb_forall in H. specialize (H (Z.to_nat n)).
  rewrite Z2Nat.id in H by lia. apply H. apply in_seq. lia.
Qed.

Lemma days_before_year_decomp y a b c e :
  y = 400 * a + 100 * b + 4 * c + e + 1 ->
  0 <= b <= 3 -> 0 <= c <= 24 -> 0 <= e <= 3 ->
  days_before_year y = 146097 * a + 36524 * b + 1461 * c + 365 * e.
Proof.
  intros -> Hb Hc He. unfold days_before_year. cbv zeta.
  Z.div_mod_to_equations. lia.
Qed.

Lemma is_leap_decomp y a b c e :
  y = 400 * a + 100 * b + 4 * c + e + 1 ->
  0 <= b <= 3 -> 0 <= c <= 24 -> 0 <= e <= 3 ->
  is_leap y = (e =? 3) && (negb (c =? 24) || (b =? 3)).
Proof.
  intros -> Hb Hc He. unfold is_leap.
  destruct (Z.eqb_spec ((400 * a + 100 * b + 4 * c + e + 1) mod 4) 0) as [H4|H4];
  destruct (Z.eqb_spec ((400 * a + 100 * b + 4 * c + e + 1) mod 100) 0) as [H100|H100];
  destruct (Z.eqb_spec ((400 * a + 100 * b + 4 * c + e + 1) mod 400) 0) as [H400|H400];
  destruct (Z.eqb_spec e 3) as [He3|He3];
  destruct (Z.eqb_spec c 24) as [Hc24|Hc24];
  destruct (Z.eqb_spec b 3) as [Hb3|Hb3]; simpl; try reflexivity; exfalso;
  revert H4 H100 H400; Z.div_mod_to_equations; lia.
Qed.

Lemma toordinal_ord2ymd n : 1 <= n -> toordinal (ord2ymd n) = n.
Proof.
  intros Hn. unfold ord2ymd. cbv zeta.
  set (n0 := n - 1).
  set (a := n0 / 146097). set (r1 := n0 mod 146097).
  set (b := r1 / 36524). set (r2 := r1 mod 36524).
  set (c := r2 / 1461). set (r3 := r2 mod 1461).
  set (e := r3 / 365). set (r4 := r3 mod 365).
  assert (H1 : n0 = 146097 * a + r1 /\ 0 <= r1 < 146097)
    by (split; [apply Z.div_mod|apply Z.mod_pos_bound]; lia).
  assert (H2 : r1 = 36524 * b + r2 /\ 0 <= r2 < 36524)
    by (split; [apply Z.div_mod|apply Z.mod_pos_bound]; lia).
  assert (H3 : r2 = 1461 * c + r3 /\ 0 <= r3 < 1461)
    by (split; [apply Z.div_mod|apply Z.mod_pos_bound]; lia).
  assert (H4 : r3 = 365 * e + r4 /\ 0 <= r4 < 365)
    by (split; [apply Z.div_mod|apply Z.mod_pos_bound]; lia).
  assert (Hn0 : n = n0 + 1) by (unfold n0; lia).
  clearbody a r1 b r2 c r3 e r4 n0.
  destruct H1 as [-> Hr1], H2 as [-> Hr2], H3 as [-> Hr3], H4 as [-> Hr4].
  unfold toordinal, ymd2ord, days_before_month.
  destruct ((e =? 4) || (b =? 4)) eqn:Hsp.
  - cbn [dyear dmonth dday].
    apply orb_true_iff in Hsp as [He|Hb].
    + apply Z.eqb_eq in He. subst e.
      assert (Hc : 0 <= c <= 23) by lia. assert (Hb : 0 <= b <= 3) by lia.
      rewrite (days_before_year_decomp _ a b c 3) by lia.
      rewrite (is_leap_decomp _ a b c 3) by lia.
      replace (c =? 24) with false by (symmetry; apply Z.eqb_neq; lia).
      simpl. lia.
    + apply Z.eqb_eq in Hb. subst b.
      assert (c = 0 /\ e = 0 /\ r4 = 0) as (-> & -> & ->) by lia.
      rewrite (days_before_year_decomp _ a 3 24 3) by lia.
      rewrite (is_leap_decomp _ a 3 24 3) by lia.
      simpl. lia.
  - apply orb_false_iff in Hsp as [He Hb].
    apply Z.eqb_neq in He, Hb.
    assert (Hb' : 0 <= b <= 3) by lia. assert (Hc : 0 <= c <= 24) by lia.
    assert (He' : 0 <= e <= 3) by lia.
    pose proof (month_day_checked ((e =? 3) && (negb (c =? 24) || (b =? 3))) r4 Hr4) as Hok.
    unfold month_day_ok in Hok.
    destruct (month_day _ r4) as [m d]. cbn [dyear dmonth dday].
    rewrite (days_before_year_decomp _ a b c e) by lia.
    rewrite (is_leap_decomp _ a b c e) by lia.
    repeat (apply andb_true_iff in Hok as [Hok ?]).
    match goal with H : (_ =? _) = true |- _ => apply Z.eqb_eq in H; unfold DAYS_BEFORE_MONTH in H end.
    lia.
Qed.

Lemma days_before_year_nonneg y : 1 <= y -> 0 <= days_before_year y.
Proof. intros Hy. unfold days_before_year. cbv zeta. Z.div_mod_to_equations. lia. Qed.

Lemma day_of_year_bounds y m d :
  1 <= m <= 12 -> 1 <= d <= days_in_month y m ->
  1 <= days_before_month y m + d <= 365 + (if is_leap y then 1 else 0).
Proof.
  intros Hm Hd. unfold days_before_month, days_in_month in *.
  assert (Hcases : m = 1 \/ m = 2 \/ m = 3 \/ m = 4 \/ m = 5 \/ m = 6 \/
                   m = 7 \/ m = 8 \/ m = 9 \/ m = 10 \/ m = 11 \/ m = 12) by lia.
  destruct (is_leap y);
    repeat (destruct Hcases as [->|Hcases]; [simpl in *; lia|]);
    subst m; simpl in *; lia.
Qed.

Lemma toordinal_bounds d : valid_date d -> 1 <= toordinal d <= MAXORDINAL.
Proof.
  intros (Hy & Hm & Hd). unfold toordinal, ymd2ord, MAXORDINAL.
  pose proof (days_before_year_nonneg (dyear d) ltac:(lia)) as H0.
  pose proof (day_of_year_bounds _ _ _ Hm Hd) as Hdoy.
  split; [lia|].
  destruct (Z.eq_dec (dyear d) 9999) as [Hy9|Hy9].
  - rewrite Hy9 in *. change (is_leap 9999) with false in Hdoy.
    change (days_before_year 9999) with 3651694. lia.
  - assert (days_before_year (dyear d) <= 3651428).
    { unfold days_before_year. cbv zeta. Z.div_mod_to_equations. lia. }
    destruct (is_leap (dyear d)); lia.
Qed.

Lemma ord2ymd_valid n : 1 <= n <= MAXORDINAL -> valid_date (ord2ymd n).
Proof.
  intros Hn. unfold MAXORDINAL in Hn. unfold ord2ymd, valid_date. cbv zeta.
  set (n0 := n - 1).
  set (a := n0 / 146097). set (r1 := n0 mod 146097).
  set (b := r1 / 36524). set (r2 := r1 mod 36524).
  set (c := r2 / 1461). set (r3 := r2 mod 1461).
  set (e := r3 / 365). set (r4 := r3 mod 365).
  assert (H1 : n0 = 146097 * a + r1 /\ 0 <= r1 < 146097)
    by (split; [apply Z.div_mod|apply Z.mod_pos_bound]; lia).
  assert (H2 : r1 = 36524 * b + r2 /\ 0 <= r2 < 36524)
    by (split; [apply Z.div_mod|apply Z.mod_pos_bound]; lia).
  assert (H3 : r2 = 1461 * c + r3 /\ 0 <= r3 < 1461)
    by (split; [apply Z.div_mod|apply Z.mod_pos_bound]; lia).
  assert (H4 : r3 = 365 * e + r4 /\ 0 <= r4 < 365)
    by (split; [apply Z.div_mod|apply Z.mod_pos_bound]; lia).
  assert (Hn0 : 0 <= n0 <= 3652058) by (unfold n0; lia).
  clearbody a r1 b r2 c r3 e r4 n0.
  destruct H1 as [-> Hr1], H2 as [-> Hr2], H3 as [-> Hr3], H4 as [-> Hr4].
  destruct ((e =? 4) || (b =? 4)) eqn:Hsp.
  - cbn [dyear dmonth dday].
    assert (Hdim : days_in_month (a * 400 + 1 + b * 100 + c * 4 + e - 1) 12 = 31) by done.
    rewrite Hdim. apply orb_true_iff in Hsp as [He|Hb];
      [apply Z.eqb_eq in He|apply Z.eqb_eq in Hb]; lia.
  - apply orb_false_iff in Hsp as [He Hb].
    apply Z.eqb_neq in He, Hb.
    pose proof (month_day_checked ((e =? 3) && (negb (c =? 24) || (b =? 3))) r4 Hr4) as Hok.
    unfold month_day_ok in Hok.
    destruct (month_day _ r4) as [m d]. cbn [dyear dmonth dday].
    unfold days_in_month. rewrite (is_leap_decomp _ a b c e) by lia.
    repeat (apply andb_true_iff in Hok as [Hok ?]).
    repeat match goal with
           | H : (_ <=? _) = true |- _ => apply Z.leb_le in H
           end.
    lia.
Qed.

(** X2. For every date [d], [_monday_of d] does not overflow and is the
    Monday on or before [d]: a date whose weekday is 0, at most six days
    before [d]. *)
Theorem monday_of_spec (d : date) :
  valid_date d ->
  exists m, _monday_of d = Some m /\ valid_date m /\ weekday m = 0 /\
            toordinal m <= toordinal d < toordinal m + 7.
Proof.
  intros Hv. pose proof (toordinal_bounds d Hv) as Hord.
  unfold _monday_of, date_sub_days, weekday in *.
  set (o := toordinal d) in *.
  pose proof (Z.mod_pos_bound (o + 6) 7 ltac:(lia)) as Hw.
  pose proof (Z.div_mod (o + 6) 7 ltac:(lia)) as Hdm.
  assert (Hq : 1 <= (o + 6) / 7) by (apply Z.div_le_lower_bound; lia).
  assert (Ho : 1 <= o - (o + 6) mod 7 <= MAXORDINAL) by lia.
  replace ((0 <? o - (o + 6) mod 7) && (o - (o + 6) mod 7 <=? MAXORDINAL)) with true
    by (symmetry; apply andb_true_iff; split; [apply Z.ltb_lt|apply Z.leb_le]; lia).
  eexists. split; [reflexivity|]. split; [by apply ord2ymd_valid|].
  rewrite toordinal_ord2ymd by lia. split; [|lia].
  replace (o - (o + 6) mod 7 + 6) with (7 * ((o + 6) / 7)) by lia.
  rewrite Z.mul_comm. apply Z.mod_mul. lia.
Qed.

Lemma monday_of_spec_witness :
  valid_date (mkdate 2024 6 5) /\
  exists m, _monday_of (mkdate 2024 6 5) = Some m /\ valid_date m /\ weekday m = 0 /\
            toordinal m <= toordinal (mkdate 2024 6 5) < toordinal m + 7.
Proof.
  assert (Hv : valid_date (mkdate 2024 6 5)) by (repeat split; by vm_compute).
  split; [exact Hv|]. exact (monday_of_spec (mkdate 2024 6 5) Hv).
Defined.

(** ** Store keys *)

Lemma append_length s1 s2 :
  String.length (s1 +:+ s2) = (String.length s1 + String.length s2)%nat.
Proof. induction s1 as [|c s1 IH]; simpl; [done|]. by rewrite IH. Qed.

Lemma append_inj_same_length s1 s2 t1 t2 :
  String.length t1 = String.length t2 ->
  s1 +:+ t1 = s2 +:+ t2 -> s1 = s2 /\ t1 = t2.
Proof.
  intros Hlen. revert s2. induction s1 as [|c s1 IH]; intros [|c' s2] Heq.
  - done.
  - exfalso. apply (f_equal String.length) in Heq.
    rewrite !append_length in Heq. simpl in Heq. lia.
  - exfalso. apply (f_equal String.length) in Heq.
    rewrite !append_length in Heq. simpl in Heq. lia.
  - change (String c (s1 +:+ t1) = String c' (s2 +:+ t2)) in Heq.
    injection Heq as -> Heq. apply IH in Heq as [-> ->]. done.
Qed.

Lemma zfill_length w n s :
  String.length (zfill w n s) = (w + String.length s)%nat.
Proof.
  revert n s. induction w as [|w IH]; intros n s; simpl; [done|].
  rewrite IH. simpl. lia.
Qed.

Lemma date_isoformat_length d : String.length (date_isoformat d) = 10%nat.
Proof.
  unfold date_isoformat. rewrite zfill_length, append_length, zfill_length,
    append_length, zfill_length. reflexivity.
Qed.

Lemma date_isoformat_inj d1 d2 :
  valid_date d1 -> valid_date d2 ->
  date_isoformat d1 = date_isoformat d2 -> d1 = d2.
Proof.
  intros (Hy1 & Hm1 & Hd1) (Hy2 & Hm2 & Hd2) Heq.
  assert (Hdim : forall y m, 1 <= m <= 12 -> days_in_month y m <= 31).
  { intros y m Hm. unfold days_in_month. destruct (_ && _); [lia|].
    assert (Hcases : m = 1 \/ m = 2 \/ m = 3 \/ m = 4 \/ m = 5 \/ m = 6 \/
                     m = 7 \/ m = 8 \/ m = 9 \/ m = 10 \/ m = 11 \/ m = 12) by lia.
    repeat (destruct Hcases as [->|Hcases]; [simpl; lia|]). subst m. simpl. lia. }
  assert (Hd1' : 1 <= dday d1 <= 31) by (pose proof (Hdim (dyear d1) _ Hm1); lia).
  assert (Hd2' : 1 <= dday d2 <= 31) by (pose proof (Hdim (dyear d2) _ Hm2); lia).
  clear Hd1 Hd2 Hdim.
  destruct d1 as [y1 m1 dd1], d2 as [y2 m2 dd2]. cbn [dyear dmonth dday] in *.
  unfold date_isoformat in Heq. cbn [dyear dmonth dday] in Heq.
  assert (Hread : forall y m d rest,
            0 <= y < 10000 -> 0 <= m < 100 -> 0 <= d < 100 ->
            ('(y', s) ← read_digits 4 0 (zfill 4 y ("-" +:+ zfill 2 m ("-" +:+ zfill 2 d rest)));
             s ← expect "-" s;
             '(m', s) ← read_digits 2 0 s;
             s ← expect "-" s;
             '(d', _) ← read_digits 2 0 s;
             Some (y', m', d')) = Some (y, m, d)).
  { intros y m d rest Hy Hm Hd.
    repeat (rewrite read_digits_zfill by (simpl; lia); cbn [mbind option_bind];
            try rewrite expect_app; cbn [mbind option_bind]).
    done. }
  pose proof (Hread y1 m1 dd1 "" ltac:(lia) ltac:(lia) ltac:(lia)) as H1.
  pose proof (Hread y2 m2 dd2 "" ltac:(lia) ltac:(lia) ltac:(lia)) as H2.
  rewrite Heq in H1. rewrite H1 in H2. by inversion H2.
Qed.

(** X1. Two sheets never share a key of the store: for week starts that are
    dates, [_data_key] gives the same string only for the same employee and
    the same week. *)
Theorem data_key_injective (self self' : App) :
  valid_date (week_start self) -> valid_date (week_start self') ->
  _data_key self = _data_key self' ->
  emp_combo self = emp_combo self' /\ week_start self = week_start self'.
Proof.
  intros Hv Hv' Heq. unfold _data_key in Heq.
  apply append_inj_same_length in Heq as [Hemp Hdate];
    [|by rewrite !append_length, !date_isoformat_length].
  split; [done|]. apply String.app_inj in Hdate. by apply date_isoformat_inj.
Qed.

Lemma data_key_injective_witness :
  _data_key scenario_app = _data_key two_task_app /\
  emp_combo scenario_app = emp_combo two_task_app /\
  week_start scenario_app = week_start two_task_app.
Proof.
  split; [reflexivity|].
  apply (data_key_injective scenario_app two_task_app);
    [repeat split; by vm_compute|repeat split; by vm_compute|reflexivity].
Defined.

(** ** Tasks and employees, step by step *)

Lemma save_tail `{Runtime} {A} now (x : A) self :
  (_save_data;; reads (_build_table now);; mret x) self
  = (match _build_table now (saved self) with
     | Ok _ => Ok x
     | Raise e => Raise e
     end, saved self).
Proof.
  unfold _save_data, saved. unfold_M. by destruct (_build_table now _).
Qed.

Lemma add_task_unfold `{Runtime} t s now self :
  _add_task t s now self =
  if String.eqb t "" then (Ok (Refused "Invalid" "Please enter or select a Task."), self)
  else
    (match _build_table now
             (saved (set_rows (rows self ++ [TaskRowData.new (PStr t) (PStr s)]) self)) with
     | Ok _ => Ok Done
     | Raise e => Raise e
     end,
     saved (set_rows (rows self ++ [TaskRowData.new (PStr t) (PStr s)]) self)).
Proof.
  unfold _add_task. destruct (String.eqb t ""); [done|].
  rewrite M_bind_unfold. unfold modify at 1. apply save_tail.
Qed.

Lemma delete_task_unfold `{Runtime} i (c : bool) now self :
  _delete_task i c now self =
  if c then
    if decide (i < length (rows self))%nat then
      (match _build_table now (saved (set_rows (delete i (rows self)) self)) with
       | Ok _ => Ok tt
       | Raise e => Raise e
       end,
       saved (set_rows (delete i (rows self)) self))
    else (Raise IndexError, self)
  else (Ok tt, self).
Proof.
  unfold _delete_task. destruct c; [|done].
  rewrite M_bind_unfold. unfold gets at 1. rewrite M_bind_unfold.
  destruct (decide (i < length (rows self))%nat); [|done].
  unfold modify at 1. apply save_tail.
Qed.

Lemma load_employee_week_unfold `{Runtime} now self :
  _load_employee_week now self =
  if String.eqb (emp_combo self) "" then (Ok tt, self)
  else
    let self' := match data_store self !! _data_key self with
                 | Some _ => self
                 | None => set_data_store (<[_data_key self := []]> (data_store self)) self
                 end in
    (match _build_table now self' with Ok _ => Ok tt | Raise e => Raise e end, self').
Proof.
  unfold _load_employee_week. rewrite M_bind_unfold. unfold gets at 1.
  destruct (String.eqb (emp_combo self) ""); [done|].
  rewrite M_bind_unfold. unfold gets at 1. rewrite M_bind_unfold. unfold modify at 1.
  cbv zeta. rewrite M_bind_unfold. unfold reads at 1.
  by destruct (_build_table now _).
Qed.

Lemma select_employee_unfold `{Runtime} emp now self :
  select_employee emp now self =
  if String.eqb emp (emp_combo self) then (Ok tt, self)
  else _load_employee_week now (set_emp_combo emp self).
Proof.
  unfold select_employee. rewrite M_bind_unfold. unfold gets at 1.
  by destruct (String.eqb emp (emp_combo self)).
Qed.

(** X3. Picking another employee never changes or discards a sheet of the
    store: at most the empty sheet of the employee now in view is created.
    It neither stops the timer (the active cell stays as it was) nor writes
    the data file. *)
Theorem select_employee_keeps_sheets `{Runtime} (emp : string) (now : datetime) (self : App) :
  (forall k rs, data_store self !! k = Some rs ->
                data_store (snd (select_employee emp now self)) !! k = Some rs)
  /\ (forall k rs, data_store (snd (select_employee emp now self)) !! k = Some rs ->
                   data_store self !! k = Some rs
                   \/ (k = _data_key (snd (select_employee emp now self)) /\ rs = []))
  /\ active_timer (snd (select_employee emp now self)) = active_timer self
  /\ DATA_FILE (snd (select_employee emp now self)) = DATA_FILE self
  /\ week_start (snd (select_employee emp now self)) = week_start self.
Proof.
  rewrite select_employee_unfold.
  destruct (String.eqb emp (emp_combo self)); [by repeat split; auto|].
  rewrite load_employee_week_unfold.
  destruct (String.eqb (emp_combo (set_emp_combo emp self)) ""); [by repeat split; auto|].
  cbv zeta. cbn [snd].
  destruct (data_store (set_emp_combo emp self) !! _data_key (set_emp_combo emp self))
    as [rs0|] eqn:Hk; [by repeat split; auto|].
  cbn [data_store set_emp_combo] in Hk.
  repeat split; try done.
  - intros k rs Hrs. cbn [data_store set_data_store set_emp_combo].
    rewrite lookup_insert_ne; [done|]. intros <-. congruence.
  - intros k rs. cbn [data_store set_data_store set_emp_combo].
    destruct (decide (_data_key (set_emp_combo emp self) = k)) as [<-|Hne].
    + rewrite lookup_insert_eq. intros [= <-]. by right.
    + rewrite lookup_insert_ne by done. by left.
Qed.

Lemma open_timers_app_new self rs t s :
  rows self = rs ++ [TaskRowData.new (PStr t) (PStr s)] ->
  mjoin (imap (fun ri r => map (pair ri) (open_days r)) rs)
  = open_timers self.
Proof.
  intros Hrows. unfold open_timers. rewrite Hrows, imap_app. simpl.
  rewrite join_app. simpl. by rewrite !app_nil_r.
Qed.

(** X4. [_add_task] refuses an empty task with the "Invalid" warning and
    changes nothing. Otherwise it appends one entry, with the given task and
    subtask and seven empty days, after the entries of the sheet in view,
    which keep their places; the other sheets, the active timer and the open
    timers are as before, and the data file is written from the new store. *)
Theorem add_task_effect `{Runtime} (task subtask : string) (now : datetime) (self : App) :
  (task = "" ->
   _add_task task subtask now self
   = (Ok (Refused "Invalid" "Please enter or select a Task."), self))
  /\ (task <> "" ->
      rows (snd (_add_task task subtask now self))
      = rows self ++ [mkTaskRowData (PStr task) (PStr subtask) (replicate 7 DayData.new)]
      /\ (forall k, k <> _data_key self ->
                    data_store (snd (_add_task task subtask now self)) !! k
                    = data_store self !! k)
      /\ active_timer (snd (_add_task task subtask now self)) = active_timer self
      /\ open_timers (snd (_add_task task subtask now self)) = open_timers self
      /\ DATA_FILE (snd (_add_task task subtask now self))
         = Document (json_roundtrip (out (snd (_add_task task subtask now self))))).
Proof.
  rewrite add_task_unfold. split.
  - intros ->. done.
  - intros Hne. apply String.eqb_neq in Hne. rewrite Hne. cbn [snd].
    assert (Hrows : rows (saved (set_rows (rows self ++ [TaskRowData.new (PStr task) (PStr subtask)]) self))
                    = rows self ++ [TaskRowData.new (PStr task) (PStr subtask)]).
    { unfold saved. rewrite rows_set_DATA_FILE. apply rows_set_rows. }
    split; [exact Hrows|]. split; [|split; [done|split; [|done]]].
    + intros k Hk. unfold saved, set_rows. cbn [data_store set_DATA_FILE set_data_store].
      by rewrite lookup_insert_ne.
    + symmetry. eapply open_timers_app_new in Hrows. rewrite <-Hrows. reflexivity.
Qed.

Lemma rows_saved self : rows (saved self) = rows self.
Proof. reflexivity. Qed.

Lemma get_day_delete self self' index ri di :
  rows self' = delete index (rows self) ->
  get_day self' ri di = get_day self (if decide (ri < index)%nat then ri else S ri) di.
Proof.
  intros Hrows. unfold get_day. rewrite Hrows. case_decide.
  - by rewrite list_lookup_delete_lt.
  - by rewrite list_lookup_delete_ge by lia.
Qed.

Lemma open_timers_delete self self' index ri di :
  rows self' = delete index (rows self) ->
  (ri, di) ∈ open_timers self' <->
  (if decide (ri < index)%nat then ri else S ri, di) ∈ open_timers self.
Proof.
  intros Hrows. rewrite !elem_of_open_timers.
  by rewrite (get_day_delete self self' index ri di Hrows).
Qed.

Lemma delete_task_cases `{Runtime} (index : nat) (confirm : bool) (now : datetime)
    (self : App) :
  (confirm = false -> _delete_task index confirm now self = (Ok tt, self))
  /\ (confirm = true -> (length (rows self) <= index)%nat ->
      _delete_task index confirm now self = (Raise IndexError, self))
  /\ (confirm = true -> (index < length (rows self))%nat ->
      rows (snd (_delete_task index confirm now self)) = delete index (rows self)
      /\ (forall k, k <> _data_key self ->
                    data_store (snd (_delete_task index confirm now self)) !! k
                    = data_store self !! k)
      /\ active_timer (snd (_delete_task index confirm now self)) = active_timer self
      /\ (forall ri di,
            (ri, di) ∈ open_timers (snd (_delete_task index confirm now self)) <->
            (if decide (ri < index)%nat then ri else S ri, di) ∈ open_timers self)
      /\ DATA_FILE (snd (_delete_task index confirm now self))
         = Document (json_roundtrip (out (snd (_delete_task index confirm now self))))).
Proof.
  rewrite delete_task_unfold. split; [by intros ->|]. split.
  - intros -> Hlen. rewrite decide_False by lia. done.
  - intros -> Hlen. rewrite decide_True by done. cbn [snd].
    assert (Hrows : rows (saved (set_rows (delete index (rows self)) self))
                    = delete index (rows self))
      by (rewrite rows_saved; apply rows_set_rows).
    split; [exact Hrows|]. split; [|split; [done|split; [|done]]].
    + intros k Hk. unfold saved, set_rows. cbn [data_store set_DATA_FILE set_data_store].
      by rewrite lookup_insert_ne.
    + intros ri di. by apply open_timers_delete.
Qed.

(** X5. [_delete_task] does nothing when the user answers No, and raises
    [IndexError] without a change when the index is past the last entry.
    Otherwise it removes that one entry from the sheet in view: the entries
    before it keep their index, the entries after it move up by one, open
    timers included; the other sheets and the active timer are as before
    (the active cell is not adjusted), and the data file is written from the
    new store. *)
Theorem delete_task_effect `{Runtime} (index : nat) (confirm : bool) (now : datetime)
    (self : App) :
  (confirm = false -> _delete_task index confirm now self = (Ok tt, self))
  /\ (confirm = true -> (length (rows self) <= index)%nat ->
      _delete_task index confirm now self = (Raise IndexError, self))
  /\ (confirm = true -> (index < length (rows self))%nat ->
      rows (snd (_delete_task index confirm now self)) = delete index (rows self)
      /\ (forall k, k <> _data_key self ->
                    data_store (snd (_delete_task index confirm now self)) !! k
                    = data_store self !! k)
      /\ active_timer (snd (_delete_task index confirm now self)) = active_timer self
      /\ (forall ri di,
            (ri, di) ∈ open_timers (snd (_delete_task index confirm now self)) <->
            (if decide (ri < index)%nat then ri else S ri, di) ∈ open_timers self)
      /\ DATA_FILE (snd (_delete_task index confirm now self))
         = Document (json_roundtrip (out (snd (_delete_task index confirm now self))))).
Proof. apply delete_task_cases. Qed.

Lemma delete_task_effect_witness :
  let R := exact_runtime in
  let self := run [mkclick 1 0 (date_of t0900) t0900] two_task_app in
  rows (snd (_delete_task 0 true t0930 self)) = delete 0%nat (rows self)
  /\ active_timer (snd (_delete_task 0 true t0930 self)) = Some (1, 0)%nat
  /\ open_timers (snd (_delete_task 0 true t0930 self)) = [(0, 0)%nat].
Proof.
  intros R self.
  destruct (@delete_task_effect R 0 true t0930 self) as (_ & _ & Hdel).
  destruct (Hdel eq_refl) as (Hrows & _ & Hact & _ & _); [vm_compute; lia|].
  split; [exact Hrows|]. split; [rewrite Hact|]; reflexivity.
Defined.

(** X6. Deleting an entry above the one whose timer is running moves the
    open cell up by one row while [active_timer] keeps naming the old row:
    from then on the open timer is not the active one. *)
Theorem delete_above_running_row `{Runtime} (index ri di : nat) (now : datetime)
    (self : App) :
  (ri, di) ∈ open_timers self ->
  active_timer self = Some (ri, di) ->
  (index < ri)%nat ->
  (ri - 1, di)%nat ∈ open_timers (snd (_delete_task index true now self))
  /\ active_timer (snd (_delete_task index true now self)) = Some (ri, di)
  /\ ~ timer_inv (snd (_delete_task index true now self)).
Proof.
  intros Hopen Hact Hlt.
  assert (Hlen : (index < length (rows self))%nat).
  { apply elem_of_open_timers in Hopen as (dd & Hdd & _). unfold get_day in Hdd.
    destruct (rows self !! ri) as [r|] eqn:Hr; [|done].
    apply lookup_lt_Some in Hr. lia. }
  destruct (delete_task_cases index true now self) as (_ & _ & Hdel).
  destruct (Hdel eq_refl Hlen) as (_ & _ & Hact' & Hshift & _).
  assert (Hin : (ri - 1, di)%nat ∈ open_timers (snd (_delete_task index true now self))).
  { apply Hshift. rewrite decide_False by lia. by replace (S (ri - 1)) with ri by lia. }
  split; [done|]. split; [congruence|].
  intros Hinv. apply Hinv in Hin. rewrite Hact', Hact in Hin.
  injection Hin as Hri. lia.
Qed.

Lemma delete_above_running_row_witness :
  let R := exact_runtime in
  let self := run [mkclick 1 0 (date_of t0900) t0900] two_task_app in
  (0, 0)%nat ∈ open_timers (snd (_delete_task 0 true t0930 self))
  /\ active_timer (snd (_delete_task 0 true t0930 self)) = Some (1, 0)%nat.
Proof.
  intros R self.
  destruct (@delete_above_running_row R 0 1 0 t0930 self) as (Hin & Hact & _).
  - vm_compute. left.
  - reflexivity.
  - lia.
  - split; [exact Hin|exact Hact].
Defined.

(** X7. Deleting the entry whose timer is running removes the open timer
    with it but leaves [active_timer] set: no timer is open any more, yet a
    click on any other cell of the sheet is still answered with the "Active
    Timer" warning and changes nothing. *)
Theorem delete_running_row `{Runtime} (ri di : nat) (now : datetime) (self : App) :
  timer_inv self ->
  active_timer self = Some (ri, di) ->
  (ri < length (rows self))%nat ->
  open_timers (snd (_delete_task ri true now self)) = []
  /\ active_timer (snd (_delete_task ri true now self)) = Some (ri, di)
  /\ forall ri' di' today now',
       (ri', di') ≠ (ri, di) ->
       is_Some (get_day (snd (_delete_task ri true now self)) ri' di') ->
       _toggle_timer ri' di' today now' (snd (_delete_task ri true now self))
       = (Ok TimerBusyError, snd (_delete_task ri true now self)).
Proof.
  intros Hinv Hact Hlen.
  destruct (delete_task_cases ri true now self) as (_ & _ & Hdel).
  destruct (Hdel eq_refl Hlen) as (_ & _ & Hact' & Hshift & _).
  split; [|split; [congruence|]].
  - apply elem_of_nil_inv. intros [rj dj] Hin. apply Hshift in Hin.
    apply Hinv in Hin. rewrite Hact in Hin. injection Hin as Hr _.
    case_decide; lia.
  - intros ri' di' today now' Hne [dd Hdd].
    rewrite toggle_timer_unfold, Hdd, Hact', Hact.
    rewrite decide_False; [done|]. congruence.
Qed.

Lemma delete_running_row_witness :
  let R := exact_runtime in
  let self := run [mkclick 1 0 (date_of t0900) t0900] two_task_app in
  open_timers (snd (_delete_task 1 true t0930 self)) = []
  /\ active_timer (snd (_delete_task 1 true t0930 self)) = Some (1, 0)%nat
  /\ _toggle_timer 0 0 (date_of t0930) t0930 (snd (_delete_task 1 true t0930 self))
     = (Ok TimerBusyError, snd (_delete_task 1 true t0930 self)).
Proof.
  intros R self.
  destruct (@delete_running_row R 1 0 t0930 self) as (Hopen & Hact & Hbusy).
  - apply (@run_timer_inv R). apply Idle_timer_inv. split; reflexivity.
  - reflexivity.
  - vm_compute. lia.
  - split; [exact Hopen|]. split; [exact Hact|].
    apply Hbusy; [discriminate|]. vm_compute. eauto.
Defined.

(** ** What the operations keep *)

Lemma day_grown_refl d : day_grown d d.
Proof. split; [done|by left]. Qed.

Lemma day_grown_trans d1 d2 d3 : day_grown d1 d2 -> day_grown d2 d3 -> day_grown d1 d3.
Proof.
  intros [Hn1 Hs1] [Hn2 Hs2]. split; [congruence|].
  destruct Hs1 as [Hs1|(l & m & Hl & Hs1)], Hs2 as [Hs2|(l' & m' & Hl' & Hs2)].
  - left. congruence.
  - right. exists l', m'. split; congruence.
  - right. exists l, m. split; congruence.
  - right. rewrite Hs1 in Hl'. injection Hl' as <-.
    exists l, (m ++ m'). split; [done|]. by rewrite Hs2, app_assoc.
Qed.

Lemma row_grown_refl r : row_grown r r.
Proof.
  repeat split. apply Forall_Forall2_diag, list.Forall_forall. intros d _. apply day_grown_refl.
Qed.

Lemma row_grown_trans r1 r2 r3 : row_grown r1 r2 -> row_grown r2 r3 -> row_grown r1 r3.
Proof.
  intros (Ht1 & Hs1 & Hd1) (Ht2 & Hs2 & Hd2). repeat split; try congruence.
  eapply Forall2_trans; [|exact Hd1|exact Hd2]. intros ? ? ?. apply day_grown_trans.
Qed.

Lemma rows_grown_refl rs : Forall2 row_grown rs rs.
Proof. apply Forall_Forall2_diag, list.Forall_forall. intros r _. apply row_grown_refl. Qed.

Lemma sheet_grown_refl rs : sheet_grown rs rs.
Proof. exists rs, []. split; [by rewrite app_nil_r|apply rows_grown_refl]. Qed.

Lemma sheet_grown_trans rs1 rs2 rs3 :
  sheet_grown rs1 rs2 -> sheet_grown rs2 rs3 -> sheet_grown rs1 rs3.
Proof.
  intros (a & b & -> & Hab) (c & d & -> & Hcd).
  apply Forall2_app_inv_l in Hcd as (c1 & c2 & Hc1 & Hc2 & ->).
  exists c1, (c2 ++ d). split; [by rewrite app_assoc|].
  eapply Forall2_trans; [|exact Hab|exact Hc1]. intros ? ? ?. apply row_grown_trans.
Qed.

Lemma kept_refl self : kept self self.
Proof. repeat split. apply sheet_grown_refl. Qed.

Lemma kept_trans s1 s2 s3 : kept s1 s2 -> kept s2 s3 -> kept s1 s3.
Proof.
  intros (He1 & Hw1 & Hk1 & Hg1) (He2 & Hw2 & Hk2 & Hg2).
  assert (Hkey : _data_key s2 = _data_key s1) by (unfold _data_key; congruence).
  repeat split; try congruence.
  - intros k Hk. rewrite Hk2, Hk1; [done|done|congruence].
  - by eapply sheet_grown_trans.
Qed.

Lemma kept_same_store self self' :
  emp_combo self' = emp_combo self -> week_start self' = week_start self ->
  data_store self' = data_store self -> kept self self'.
Proof.
  intros He Hw Hd. repeat split; try done.
  - intros k _. by rewrite Hd.
  - assert (Hrows : rows self' = rows self).
    { unfold rows, _data_key. by rewrite Hd, He, Hw. }
    rewrite Hrows. apply sheet_grown_refl.
Qed.

Lemma kept_put_day ri di dd self :
  (forall dd0, get_day self ri di = Some dd0 -> day_grown dd0 dd) ->
  kept self (snd (put_day ri di dd self)).
Proof.
  intros Hdd. unfold put_day, modify. cbn [snd]. repeat split.
  - intros k Hk. unfold set_rows. cbn [data_store set_data_store].
    by rewrite lookup_insert_ne.
  - rewrite rows_set_rows. exists (alter (fun r => TaskRowData.set_days (<[di:=dd]> (days r)) r)
                                       ri (rows self)), [].
    split; [by rewrite app_nil_r|].
    apply Forall2_alter_r; [apply rows_grown_refl|].
    intros r r' Hr Hr' _. rewrite Hr in Hr'. injection Hr' as <-.
    repeat split. cbn [days TaskRowData.set_days].
    destruct (days r !! di) as [dd0|] eqn:Hdi.
    + rewrite <-(list_insert_id (days r) di dd0) at 1 by done.
      apply Forall2_insert.
      * apply Forall_Forall2_diag, list.Forall_forall. intros d _. apply day_grown_refl.
      * apply Hdd. unfold get_day. rewrite Hr. simpl. done.
    + rewrite list_insert_ge by (by apply lookup_ge_None).
      apply Forall_Forall2_diag, list.Forall_forall. intros d _. apply day_grown_refl.
Qed.

Lemma stop_finish_fields `{Runtime} now dd self :
  emp_combo (snd (stop_finish now dd self)) = emp_combo self /\
  week_start (snd (stop_finish now dd self)) = week_start self /\
  data_store (snd (stop_finish now dd self)) = data_store self.
Proof. unfold stop_finish. by destruct (DayData.total_hours now dd). Qed.

Lemma kept_stop_timer `{Runtime} ri di now self :
  kept self (snd (_stop_timer ri di now self)).
Proof.
  rewrite stop_timer_unfold.
  destruct (get_day self ri di) as [dd|] eqn:Hdd; [|apply kept_refl].
  destruct (running_start dd) as [t0|] eqn:Hrun.
  - destruct (sessions dd) as [| | | | |l| |] eqn:Hs; try apply kept_refl.
    eapply kept_trans; [|apply kept_same_store; apply stop_finish_fields].
    unfold close_cell.
    eapply (kept_trans _ (snd (put_day ri di
              (DayData.set_sessions
                 (PList (l ++ [PTuple [PStr (isoformat t0); PStr (isoformat now)]])) dd)
              self))).
    + apply kept_put_day. intros dd0 Hdd0. rewrite Hdd in Hdd0. injection Hdd0 as <-.
      split; [done|]. right. exists l. eexists. split; [exact Hs|reflexivity].
    + apply kept_put_day. intros dd0. rewrite get_day_put_day, decide_True by done.
      rewrite Hdd. intros [= <-]. split; [done|by left].
  - apply kept_same_store; apply stop_finish_fields.
Qed.

Lemma kept_toggle_timer `{Runtime} ri di today now self :
  kept self (snd (_toggle_timer ri di today now self)).
Proof.
  rewrite toggle_timer_unfold.
  destruct (get_day self ri di) as [dd|] eqn:Hdd; [|apply kept_refl].
  case_decide.
  - pose proof (kept_stop_timer ri di now self) as Hk.
    by destruct (_stop_timer ri di now self) as [[[]|?] ?].
  - destruct (active_timer self); [apply kept_refl|].
    case_decide; [apply kept_refl|]. cbn [snd].
    eapply kept_trans; [|by apply kept_same_store].
    apply kept_put_day. intros dd0 Hdd0. rewrite Hdd in Hdd0. injection Hdd0 as <-.
    split; [done|by left].
Qed.

Lemma kept_add_task `{Runtime} t s now self :
  kept self (snd (_add_task t s now self)).
Proof.
  rewrite add_task_unfold. destruct (String.eqb t ""); [apply kept_refl|].
  cbn [snd]. repeat split.
  - intros k Hk. unfold saved, set_rows. cbn [data_store set_DATA_FILE set_data_store].
    by rewrite lookup_insert_ne.
  - rewrite rows_saved, rows_set_rows. eexists _, _. split; [reflexivity|].
    apply rows_grown_refl.
Qed.

(** X8. Clicks and added tasks keep what is recorded: whatever the sequence,
    the other sheets of the store are untouched, and every entry the sheet in
    view had is still at its index, with its task and subtask, and in each of
    its days the same notes and the sessions it had, possibly followed by
    new ones. *)
Theorem clicks_and_tasks_keep_records `{Runtime} (es : list event) (self : App) :
  Forall (fun e => keeps_rows e = true) es ->
  (forall k, k <> _data_key self ->
             data_store (run_events es self) !! k = data_store self !! k)
  /\ exists rs1 rs2, rows (run_events es self) = rs1 ++ rs2
                     /\ Forall2 row_grown (rows self) rs1.
Proof.
  intros Hes.
  assert (Hkept : kept self (run_events es self)).
  { revert self. induction Hes as [|e es He _ IH]; intros self; [apply kept_refl|].
    simpl. eapply kept_trans; [|apply IH].
    destruct e as [c|t s now|i c now|emp now]; try discriminate; simpl.
    - apply kept_toggle_timer.
    - apply kept_add_task. }
  destruct Hkept as (_ & _ & Hk & Hg). split; [exact Hk|exact Hg].
Qed.

Lemma clicks_and_tasks_keep_records_witness :
  let R := exact_runtime in
  let es := [Click click_monday_0900; AddTask "Meeting" "Meeting" t0930;
             Click (mkclick 0 0 (date_of t1015) t1015)] in
  exists rs1 rs2, rows (run_events es scenario_app) = rs1 ++ rs2
                  /\ Forall2 row_grown (rows scenario_app) rs1.
Proof.
  intros R es.
  destruct (@clicks_and_tasks_keep_records R es scenario_app) as [_ Hg].
  - repeat constructor.
  - exact Hg.
Defined.

Lemma seven_days_rows self :
  seven_days self -> Forall (fun r => length (days r) = 7%nat) (rows self).
Proof.
  intros Hs. unfold rows.
  destruct (data_store self !! _data_key self) as [rs|] eqn:E; simpl; [|constructor].
  by apply (Hs _ _ E).
Qed.

Lemma seven_days_set_rows rs self :
  seven_days self -> Forall (fun r => length (days r) = 7%nat) rs ->
  seven_days (set_rows rs self).
Proof.
  intros Hs Hrs. unfold seven_days, set_rows. cbn [data_store set_data_store].
  by apply map_Forall_insert_2.
Qed.

Lemma seven_days_same_store self self' :
  data_store self' = data_store self -> seven_days self -> seven_days self'.
Proof. unfold seven_days. by intros ->. Qed.

Lemma seven_days_put_day ri di dd self :
  seven_days self -> seven_days (snd (put_day ri di dd self)).
Proof.
  intros Hs. unfold put_day, modify. cbn [snd]. apply seven_days_set_rows; [done|].
  apply Forall_alter; [by apply seven_days_rows|].
  intros r _ Hr. cbn [days TaskRowData.set_days]. by rewrite length_insert.
Qed.

Lemma seven_days_stop_timer `{Runtime} ri di now self :
  seven_days self -> seven_days (snd (_stop_timer ri di now self)).
Proof.
  intros Hs. rewrite stop_timer_unfold.
  destruct (get_day self ri di) as [dd|]; [|done].
  destruct (running_start dd) as [t0|].
  - destruct (sessions dd); try done.
    eapply seven_days_same_store; [apply stop_finish_fields|].
    unfold close_cell. by do 2 apply seven_days_put_day.
  - eapply seven_days_same_store; [apply stop_finish_fields|done].
Qed.

Lemma seven_days_step `{Runtime} e self :
  seven_days self -> seven_days (step e self).
Proof.
  intros Hs. destruct e as [c|t s now|i c now|emp now]; simpl.
  - unfold do_click. rewrite toggle_timer_unfold.
    destruct (get_day self _ _) as [dd|]; [|done]. case_decide.
    + pose proof (seven_days_stop_timer (click_ri c) (click_di c) (click_now c) self Hs).
      by destruct (_stop_timer _ _ _ self) as [[[]|?] ?].
    + destruct (active_timer self); [done|]. case_decide; [done|]. cbn [snd].
      eapply seven_days_same_store; [|by apply seven_days_put_day]. done.
  - rewrite add_task_unfold. destruct (String.eqb t ""); [done|]. cbn [snd].
    eapply (seven_days_same_store (set_rows _ self)); [done|].
    apply seven_days_set_rows; [done|]. apply Forall_app. split; [by apply seven_days_rows|].
    by repeat constructor.
  - rewrite delete_task_unfold. destruct c; [|done]. case_decide; [|done]. cbn [snd].
    eapply (seven_days_same_store (set_rows _ self)); [done|].
    apply seven_days_set_rows; [done|]. by apply Forall_delete, seven_days_rows.
  - rewrite select_employee_unfold. destruct (String.eqb emp (emp_combo self)); [done|].
    rewrite load_employee_week_unfold.
    destruct (String.eqb (emp_combo (set_emp_combo emp self)) ""); [done|].
    cbv zeta. cbn [snd].
    destruct (data_store (set_emp_combo emp self) !! _) eqn:E; [done|].
    unfold seven_days. cbn [data_store set_data_store set_emp_combo].
    apply map_Forall_insert_2; [constructor|done].
Qed.

(** X9. Seven days per entry is kept by everything the user can do: if
    every entry of every sheet has seven days, then after any sequence of
    clicks, added and deleted tasks and changes to a named employee every
    entry still has seven days, so every cell the table shows has its day
    record. *)
Theorem seven_days_kept `{Runtime} (es : list event) (self : App) :
  Forall (fun e => names_employee e = true) es ->
  seven_days self ->
  seven_days (run_events es self)
  /\ forall ri di, (ri < length (rows (run_events es self)))%nat -> (di < 7)%nat ->
                   is_Some (get_day (run_events es self) ri di).
Proof.
  intros _ Hs.
  assert (Hkept : seven_days (run_events es self)).
  { revert self Hs. induction es as [|e es IH]; intros self Hs; [done|].
    simpl. apply IH. by apply seven_days_step. }
  split; [done|]. intros ri di Hri Hdi. unfold get_day.
  destruct (lookup_lt_is_Some_2 _ _ Hri) as [r Hr]. rewrite Hr. simpl.
  apply lookup_lt_is_Some_2.
  pose proof (seven_days_rows _ Hkept) as Hrows.
  eapply Forall_lookup_1 in Hrows; [|exact Hr]. simpl in Hrows. lia.
Qed.

Lemma seven_days_kept_witness :
  let R := exact_runtime in
  let es := [Click click_monday_0900; AddTask "Meeting" "Meeting" t0930;
             DeleteTask 0 true t0930; SelectEmployee "B" t1015] in
  seven_days (run_events es scenario_app).
Proof.
  intros R es.
  destruct (@seven_days_kept R es scenario_app) as [Hs _];
    [by repeat constructor| |exact Hs].
  unfold seven_days, scenario_app, _save_data, modify. cbn [snd data_store set_DATA_FILE].
  apply map_Forall_singleton. by repeat constructor.
Defined.

Lemma timer_inv_step `{Runtime} e self :
  keeps_rows e = true -> timer_inv self -> timer_inv (step e self).
Proof.
  intros He Hinv. destruct e as [c|t s now|i c now|emp now]; try discriminate; simpl.
  - by apply toggle_timer_inv.
  - rewrite add_task_unfold. destruct (String.eqb t "") eqn:Ht; [done|]. cbn [snd].
    intros p Hp.
    erewrite <-open_timers_app_new in Hp
      by (rewrite rows_saved; apply rows_set_rows).
    by apply Hinv in Hp.
Qed.

(** X10. The single active timer survives added tasks: after any sequence
    of clicks and task additions from an idle state, at most one cell of the
    sheet in view has an open timer. *)
Theorem single_timer_with_added_tasks `{Runtime} (es : list event) (self : App) :
  Idle self ->
  Forall (fun e => keeps_rows e = true) es ->
  (length (open_timers (run_events es self)) <= 1)%nat.
Proof.
  intros Hidle Hes. apply timer_inv_at_most_one.
  pose proof (Idle_timer_inv self Hidle) as Hinv. clear Hidle.
  revert self Hinv. induction Hes as [|e es He _ IH]; intros self Hinv; [done|].
  simpl. apply IH. by apply timer_inv_step.
Qed.

Lemma single_timer_with_added_tasks_witness :
  let R := exact_runtime in
  let es := [Click click_monday_0900; AddTask "Meeting" "Meeting" t0930;
             Click (mkclick 1 0 (date_of t0930) t0930)] in
  Idle scenario_app /\
  (length (open_timers (run_events es scenario_app)) <= 1)%nat.
Proof.
  intros R es.
  assert (Hidle : Idle scenario_app) by (split; reflexivity).
  split; [exact Hidle|].
  apply (@single_timer_with_added_tasks R es scenario_app Hidle). repeat constructor.
Defined.

(** ** Starting, stopping, restarting *)

Lemma NoDup_singleton_char {A} (l : list A) (p : A) :
  NoDup l -> p ∈ l -> (forall q, q ∈ l -> q = p) -> l = [p].
Proof.
  intros Hnd Hp Hall. destruct l as [|x [|y l]].
  - inversion Hp.
  - f_equal. apply Hall. left.
  - exfalso. apply list.NoDup_cons in Hnd as [Hx _]. apply Hx.
    rewrite (Hall x), (Hall y); [left|right; left|left].
Qed.

Lemma out_same_store self self' : data_store self' = data_store self -> out self' = out self.
Proof. unfold out. by intros ->. Qed.

Lemma loaded_store_dump self :
  loaded_store (Document (json_roundtrip (out self))) = map persisted_row <$> data_store self.
Proof. apply (loaded_store_saved self). Qed.

(** X11. A start from the idle state opens exactly one timer, the clicked
    cell's, and writes nothing: the data file is as it was, so the running
    interval exists in memory only. *)
Theorem start_opens_one_timer `{Runtime} (self : App) (ri di : nat) (dd : DayData)
    (today : date) (now : datetime) :
  Idle self ->
  get_day self ri di = Some dd ->
  Z.of_nat di = weekday today ->
  open_timers (snd (_toggle_timer ri di today now self)) = [(ri, di)]
  /\ DATA_FILE (snd (_toggle_timer ri di today now self)) = DATA_FILE self
  /\ data_store (init (emp_combo self) (week_start self)
                      (DATA_FILE (snd (_toggle_timer ri di today now self))))
     = loaded_store (DATA_FILE self).
Proof.
  intros Hidle Hdd Hday.
  pose proof (toggle_timer_inv ri di today now self (Idle_timer_inv self Hidle)) as Hinv.
  destruct Hidle as [Hact Hopen].
  revert Hinv. rewrite toggle_timer_unfold, Hdd, Hact.
  rewrite decide_False by done. rewrite decide_False by (intros Hne; by apply Hne).
  cbn [snd]. intros Hinv.
  split; [|split; [done|by rewrite data_store_init]].
  apply NoDup_singleton_char; [apply NoDup_open_timers| |].
  - apply elem_of_open_timers. eexists. split.
    + erewrite get_day_rows by apply rows_set_active_timer.
      rewrite get_day_put_day, decide_True by done. by rewrite Hdd.
    + by eexists.
  - intros q Hq. apply Hinv in Hq. by injection Hq.
Qed.

Lemma start_opens_one_timer_witness :
  let R := exact_runtime in
  Idle scenario_app /\
  open_timers (snd (_toggle_timer 0 0 (date_of t0900) t0900 scenario_app)) = [(0, 0)%nat]
  /\ DATA_FILE (snd (_toggle_timer 0 0 (date_of t0900) t0900 scenario_app))
     = DATA_FILE scenario_app.
Proof.
  intros R.
  assert (Hidle : Idle scenario_app) by (split; reflexivity).
  destruct (@start_opens_one_timer R scenario_app 0 0 DayData.new (date_of t0900) t0900
              Hidle eq_refl eq_refl) as (Hone & Hfile & _).
  split; [exact Hidle|]. split; [exact Hone|exact Hfile].
Defined.

(** X12. Two clicks on the same cell, the first on the cell's weekday with
    the application idle, record exactly one session: the cell ends with its
    sessions followed by the pair of the two instants, its notes unchanged
    and no open timer, every other cell is as it was, and no timer is open
    in the sheet. When the cell's total can be computed, the application is
    idle again and the data file holds the new store. *)
Theorem start_then_stop `{Runtime} (self : App) (ri di : nat) (dd : DayData)
    (l : list pyval) (today0 today1 : date) (t0 t1 : datetime) :
  Idle self ->
  get_day self ri di = Some dd ->
  sessions dd = PList l ->
  Z.of_nat di = weekday today0 ->
  get_day (run [mkclick ri di today0 t0; mkclick ri di today1 t1] self) ri di
  = Some (mkDayData (PList (l ++ [PTuple [PStr (isoformat t0); PStr (isoformat t1)]]))
                    (notes dd) None)
  /\ (forall ri' di', (ri', di') ≠ (ri, di) ->
        get_day (run [mkclick ri di today0 t0; mkclick ri di today1 t1] self) ri' di'
        = get_day self ri' di')
  /\ open_timers (run [mkclick ri di today0 t0; mkclick ri di today1 t1] self) = []
  /\ (is_Ok (DayData.total_hours t1
               (mkDayData (PList (l ++ [PTuple [PStr (isoformat t0); PStr (isoformat t1)]]))
                          (notes dd) None)) ->
      Idle (run [mkclick ri di today0 t0; mkclick ri di today1 t1] self)
      /\ DATA_FILE (run [mkclick ri di today0 t0; mkclick ri di today1 t1] self)
         = Document (json_roundtrip
                       (out (run [mkclick ri di today0 t0; mkclick ri di today1 t1] self)))).
Proof.
  intros Hidle Hdd Hs Hday. pose proof Hidle as [Hact Hopen].
  remember (run [mkclick ri di today0 t0; mkclick ri di today1 t1] self) as final eqn:Hf.
  unfold run in Hf. cbn [fold_left] in Hf. unfold do_click in Hf.
  cbn [click_ri click_di click_today click_now] in Hf.
  rewrite (toggle_timer_unfold ri di today0 t0 self), Hdd, Hact in Hf.
  rewrite decide_False in Hf by done.
  rewrite decide_False in Hf by (intros Hne; by apply Hne).
  cbn [snd] in Hf.
  set (s1 := set_active_timer (Some (ri, di))
               (snd (put_day ri di (DayData.set_running_start (Some t0) dd) self))) in Hf.
  assert (Hs1 : forall ri' di', get_day s1 ri' di'
                = if decide (ri' = ri /\ di' = di)
                  then Some (DayData.set_running_start (Some t0) dd)
                  else get_day self ri' di').
  { intros ri' di'. unfold s1. erewrite get_day_rows by apply rows_set_active_timer.
    rewrite get_day_put_day. case_decide; [by rewrite Hdd|done]. }
  rewrite toggle_timer_unfold, Hs1, decide_True in Hf by done.
  rewrite decide_True in Hf by done.
  rewrite stop_timer_unfold, Hs1, decide_True in Hf by done.
  cbn [running_start sessions DayData.set_running_start] in Hf. rewrite Hs in Hf.
  set (dd1 := DayData.set_running_start (Some t0) dd) in Hf.
  set (s1' := close_cell ri di dd1 l t0 t1 s1) in Hf.
  assert (Hs1' : forall ri' di', get_day s1' ri' di'
                 = if decide (ri' = ri /\ di' = di)
                   then Some (closed_day dd1 l t0 t1)
                   else get_day self ri' di').
  { intros ri' di'. unfold s1'. rewrite (get_day_close_cell ri di dd1 l t0 t1 s1).
    - case_decide as Hc; [done|]. rewrite Hs1. by rewrite decide_False.
    - rewrite Hs1. by rewrite decide_True. }
  destruct (stop_finish t1 (closed_day dd1 l t0 t1) s1') as [r s2] eqn:Hfin.
  assert (Hs2 : forall ri' di', get_day s2 ri' di' = get_day s1' ri' di').
  { intros ri' di'. pose proof (get_day_stop_finish t1 (closed_day dd1 l t0 t1) s1' ri' di') as Hg.
    by rewrite Hfin in Hg. }
  assert (Hfinal : final = s2) by (rewrite Hf; by destruct r as [[]|]).
  clear Hf. subst final.
  assert (Hnone : open_timers s2 = []).
  { apply elem_of_nil_inv. intros [ri' di'] Hin.
    apply elem_of_open_timers in Hin as (d & Hd & [t Ht]).
    rewrite Hs2, Hs1' in Hd. case_decide as Hc.
    - injection Hd as <-. done.
    - assert (Hin : (ri', di') ∈ open_timers self).
      { apply elem_of_open_timers. exists d. split; [done|]. rewrite Ht. by eexists. }
      rewrite Hopen in Hin. inversion Hin. }
  split; [by rewrite Hs2, Hs1', decide_True|].
  split.
  { intros ri' di' Hne. rewrite Hs2, Hs1'. rewrite decide_False; [done|].
    intros [-> ->]. done. }
  split; [done|].
  intros [h Hh]. unfold stop_finish in Hfin.
  change (closed_day dd1 l t0 t1)
    with (mkDayData (PList (l ++ [PTuple [PStr (isoformat t0); PStr (isoformat t1)]]))
                    (notes dd) None) in Hfin.
  rewrite Hh in Hfin. injection Hfin as _ <-.
  split; [by split|]. reflexivity.
Qed.

Lemma start_then_stop_witness :
  let R := exact_runtime in
  let final := run [click_monday_0900; mkclick 0 0 (date_of t1015) t1015] scenario_app in
  get_day final 0 0
  = Some (mkDayData (PList [PTuple [PStr "2024-06-03T09:00:00"; PStr "2024-06-03T10:15:00"]])
                    (PStr "") None)
  /\ open_timers final = []
  /\ Idle final.
Proof.
  intros R final.
  assert (Hidle : Idle scenario_app) by (split; reflexivity).
  destruct (@start_then_stop R scenario_app 0 0 DayData.new [] (date_of t0900)
              (date_of t1015) t0900 t1015 Hidle eq_refl eq_refl eq_refl)
    as (Hcell & _ & Hopen & Hok).
  split; [exact Hcell|]. split; [exact Hopen|].
  apply Hok. exists (5 # 4)%Q. reflexivity.
Defined.

(** X13. A stop that returns normally is on disk: the application is idle,
    the data file is the dump of the store as the stop left it, and an
    application started on that file reads back every sheet of that store,
    entry by entry as JSON returns them, the session just closed included. *)
Theorem stop_is_persisted `{Runtime} (ri di : nat) (now : datetime) (self self' : App) :
  _stop_timer ri di now self = (Ok tt, self') ->
  active_timer self' = None
  /\ DATA_FILE self' = Document (json_roundtrip (out self'))
  /\ forall emp monday,
       data_store (init emp monday (DATA_FILE self')) = map persisted_row <$> data_store self'.
Proof.
  rewrite stop_timer_unfold. intros Hstop.
  assert (Hfin : exists dd s0, stop_finish now dd s0 = (Ok tt, self')).
  { destruct (get_day self ri di) as [dd|]; [|done].
    destruct (running_start dd); [destruct (sessions dd); try done|]; eauto. }
  destruct Hfin as (dd & s0 & Hfin).
  apply stop_finish_effect in Hfin as (_ & Hds & [[_ [e ?]]|(Hact & Hfile & _)]); [done|].
  assert (Hout : out self' = out s0) by (by apply out_same_store).
  split; [done|]. split; [by rewrite Hfile, Hout|].
  intros emp monday. by rewrite data_store_init, Hfile, <-Hout, loaded_store_dump.
Qed.

Lemma stop_is_persisted_witness :
  let R := exact_runtime in
  let self := run [click_monday_0900] scenario_app in
  fst (_stop_timer 0 0 t1015 self) = Ok tt
  /\ DATA_FILE (snd (_stop_timer 0 0 t1015 self))
     = Document (json_roundtrip (out (snd (_stop_timer 0 0 t1015 self))))
  /\ data_store (init "A" (mkdate 2024 6 3) (DATA_FILE (snd (_stop_timer 0 0 t1015 self))))
     = map persisted_row <$> data_store (snd (_stop_timer 0 0 t1015 self)).
Proof.
  intros R self.
  assert (Hstop : _stop_timer 0 0 t1015 self = (Ok tt, snd (_stop_timer 0 0 t1015 self)))
    by (vm_compute; reflexivity).
  destruct (@stop_is_persisted R 0 0 t1015 self _ Hstop) as (_ & Hfile & Hload).
  split; [by rewrite Hstop|]. split; [exact Hfile|apply Hload].
Defined.

(** ** The totals across a stop *)

Lemma list_comp_Forall2_ext {A A' B} (f : A -> res B) (g : A' -> res B) xs ys :
  Forall2 (fun x y => f x = g y) xs ys -> list_comp f xs = list_comp g ys.
Proof.
  induction 1 as [|x y xs ys Hxy _ IH]; simpl; [done|]. by rewrite Hxy, IH.
Qed.

Lemma rows_put_day ri di dd self :
  rows (snd (put_day ri di dd self))
  = alter (fun r => TaskRowData.set_days (<[di:=dd]> (days r)) r) ri (rows self).
Proof. unfold put_day, modify. cbn [snd]. apply rows_set_rows. Qed.

Lemma total_hours_closed_clock `{Runtime} now now' d :
  running_start d = None -> DayData.total_hours now d = DayData.total_hours now' d.
Proof. intros Hrun. unfold DayData.total_hours. by rewrite Hrun. Qed.

(** Rows of the same shape whose cells agree under [P]. *)
Lemma Forall2_rows_by_cells (P : DayData -> DayData -> Prop) (rs rs' : list TaskRowData) :
  length rs = length rs' ->
  (forall j r r', rs !! j = Some r -> rs' !! j = Some r' ->
                  length (days r) = length (days r')) ->
  (forall j k r r' d d', rs !! j = Some r -> rs' !! j = Some r' ->
                         days r !! k = Some d -> days r' !! k = Some d' -> P d d') ->
  Forall2 (fun r r' => Forall2 P (days r) (days r')) rs rs'.
Proof.
  intros Hlen Hdays Hcell. apply Forall2_same_length_lookup. split; [done|].
  intros j r r' Hr Hr'. apply Forall2_same_length_lookup. split; [by eapply Hdays|].
  intros k d d' Hd Hd'. by eapply Hcell.
Qed.

Lemma rows_after_stop `{Runtime} ri di dd l t0 t1 self :
  get_day self ri di = Some dd ->
  running_start dd = Some t0 -> sessions dd = PList l ->
  rows (snd (_stop_timer ri di t1 self))
  = alter (fun r => TaskRowData.set_days (<[di:=closed_day dd l t0 t1]> (days r)) r)
          ri (rows self).
Proof.
  intros Hdd Hrun Hs. rewrite stop_timer_unfold, Hdd, Hrun, Hs.
  destruct (stop_finish t1 _ _) as [r s'] eqn:Hfin. cbn [snd].
  apply stop_finish_effect in Hfin as (-> & _). unfold close_cell.
  rewrite !rows_put_day, list_alter_alter_eq.
  apply list_alter_ext; [|done]. intros r0 _. unfold TaskRowData.set_days; simpl.
  by rewrite list_insert_insert_eq.
Qed.

Lemma totals_across_stop `{Runtime} ri di dd l t0 t1 now' self :
  timer_inv self -> active_timer self = Some (ri, di) ->
  get_day self ri di = Some dd ->
  running_start dd = Some t0 -> sessions dd = PList l ->
  fromisoformat (isoformat t0) = Some t0 ->
  fromisoformat (isoformat t1) = Some t1 ->
  Forall2 (fun r r' => Forall2 (fun d d' => DayData.total_hours t1 d
                                            = DayData.total_hours now' d')
                               (days r) (days r'))
          (rows self) (rows (snd (_stop_timer ri di t1 self))).
Proof.
  intros Hinv Hact Hdd Hrun Hs H0 H1.
  rewrite (rows_after_stop ri di dd l t0 t1 self Hdd Hrun Hs).
  apply Forall2_rows_by_cells.
  - by rewrite length_alter.
  - intros j r r' Hr Hr'. destruct (decide (j = ri)) as [->|Hj].
    + rewrite list_lookup_alter_eq, Hr in Hr'. simpl in Hr'. injection Hr' as <-.
      cbn [days TaskRowData.set_days]. by rewrite length_insert.
    + rewrite list_lookup_alter_ne, Hr in Hr' by done. by injection Hr' as <-.
  - intros j k r r' d d' Hr Hr' Hd Hd'.
    assert (Hget : get_day self j k = Some d) by (unfold get_day; rewrite Hr; done).
    destruct (decide (j = ri)) as [->|Hj];
      [rewrite list_lookup_alter_eq, Hr in Hr'; simpl in Hr'
      |rewrite list_lookup_alter_ne, Hr in Hr' by done]; injection Hr' as <-.
    + cbn [days TaskRowData.set_days] in Hd'.
      destruct (decide (k = di)) as [->|Hk].
      * rewrite list_lookup_insert_eq in Hd' by (by eapply lookup_lt_Some).
        injection Hd' as <-. rewrite Hdd in Hget. injection Hget as <-.
        symmetry. by apply total_hours_closed_day.
      * rewrite list_lookup_insert_ne in Hd' by done.
        rewrite Hd in Hd'. injection Hd' as <-.
        apply total_hours_closed_clock.
        destruct (running_start d) as [t|] eqn:Ht; [|done].
        assert (Hin : (ri, k) ∈ open_timers self).
        { apply elem_of_open_timers. exists d. split; [done|]. rewrite Ht. by eexists. }
        apply Hinv in Hin. congruence.
    + rewrite Hd in Hd'. injection Hd' as <-.
      apply total_hours_closed_clock.
      destruct (running_start d) as [t|] eqn:Ht; [|done].
      assert (Hin : (j, k) ∈ open_timers self).
      { apply elem_of_open_timers. exists d. split; [done|]. rewrite Ht. by eexists. }
      apply Hinv in Hin. congruence.
Qed.


(** X14. Nothing shown jumps at a stop. With the timer of the active cell
    running and no other timer open, the week total and the daily totals
    computed at [t1] are the ones computed, at any later reading of the
    clock, once [_stop_timer] has closed the cell at [t1]; and when the tick
    at [t1], whatever the widget grid it finds the cell in, shows hours for
    the cell and a week total, the closed cell and the week read the same
    afterwards. The two written instants are taken to be read back by
    [fromisoformat] as themselves. *)
Theorem display_continuous_at_stop `{Runtime} (self : App) (ri di : nat) (dd : DayData)
    (l : list pyval) (t0 t1 now' : datetime) :
  timer_inv self -> active_timer self = Some (ri, di) ->
  get_day self ri di = Some dd ->
  running_start dd = Some t0 -> sessions dd = PList l ->
  fromisoformat (isoformat t0) = Some t0 ->
  fromisoformat (isoformat t1) = Some t1 ->
  _update_week_total now' (snd (_stop_timer ri di t1 self)) = _update_week_total t1 self
  /\ (forall dj, total_day now' (snd (_stop_timer ri di t1 self)) dj = total_day t1 self dj)
  /\ (forall cells hrs wk,
        _update_running_timer t1 cells self = Ok (Some (hrs, wk)) ->
        (exists dd', get_day (snd (_stop_timer ri di t1 self)) ri di = Some dd'
                     /\ DayData.total_hours now' dd' = Ok hrs)
        /\ _update_week_total now' (snd (_stop_timer ri di t1 self)) = Ok wk).
Proof.
  intros Hinv Hact Hdd Hrun Hs H0 H1.
  pose proof (totals_across_stop ri di dd l t0 t1 now' self Hinv Hact Hdd Hrun Hs H0 H1)
    as Hcells.
  assert (Hweek : _update_week_total now' (snd (_stop_timer ri di t1 self))
                  = _update_week_total t1 self).
  { unfold _update_week_total, week_total. symmetry.
    erewrite (list_comp_Forall2_ext (TaskRowData.total_hours t1)); [reflexivity|].
    eapply list.Forall2_impl; [exact Hcells|]. intros r r' Hr. simpl in Hr.
    unfold TaskRowData.total_hours. by erewrite list_comp_Forall2_ext. }
  split; [exact Hweek|]. split.
  - intros dj. unfold total_day. symmetry.
    erewrite list_comp_Forall2_ext; [reflexivity|].
    eapply list.Forall2_impl; [exact Hcells|]. intros r r' Hr. simpl in Hr. simpl.
    unfold index. pose proof (proj1 (Forall2_lookup _ _ _) Hr dj) as Hdj.
    destruct Hdj as [d d' Hd|]; [exact Hd|reflexivity].
  - intros cells hrs wk Htick. unfold _update_running_timer in Htick. rewrite Hact in Htick.
    pose proof Hdd as Hget. unfold get_day in Hdd. unfold index in Htick.
    destruct (rows self !! ri) as [r|] eqn:Hr; [|done]. simpl in Hdd, Htick.
    rewrite Hdd in Htick. simpl in Htick. unfold mbind, res_bind in Htick.
    destruct (DayData.total_hours t1 dd) as [h|] eqn:Hh; [|done].
    destruct (cells !! ri) as [cell_row|]; [|done].
    destruct (cell_row !! di) as [cell|]; [|done].
    destruct (_update_week_total t1 self) as [w|] eqn:Hw; [|done].
    injection Htick as <- <-. split; [|by rewrite Hweek].
    exists (closed_day dd l t0 t1). split.
    + rewrite stop_timer_unfold, Hget, Hrun, Hs.
      rewrite get_day_stop_finish, (get_day_close_cell ri di dd l t0 t1 self ri di Hget).
      by rewrite decide_True.
    + rewrite <-Hh. by apply total_hours_closed_day.
Qed.

Lemma display_continuous_at_stop_witness :
  let R := exact_runtime in
  let self := run [click_monday_0900] scenario_app in
  _update_running_timer t1015 [replicate 7 mkDayCell] self = Ok (Some ((5 # 4)%Q, (5 # 4)%Q))
  /\ _update_week_total t0800 (snd (_stop_timer 0 0 t1015 self)) = Ok (5 # 4)%Q
  /\ total_day t0800 (snd (_stop_timer 0 0 t1015 self)) 0 = total_day t1015 self 0.
Proof.
  intros R self.
  destruct (@display_continuous_at_stop R self 0 0
              (DayData.set_running_start (Some t0900) DayData.new) [] t0900 t1015 t0800)
    as (_ & Hday & Htick); try reflexivity.
  - apply (@run_timer_inv R). apply Idle_timer_inv. split; reflexivity.
  - assert (Ht : _update_running_timer t1015 [replicate 7 mkDayCell] self
                 = Ok (Some ((5 # 4)%Q, (5 # 4)%Q)))
      by reflexivity.
    split; [exact Ht|]. split; [exact (proj2 (Htick _ _ _ Ht))|apply Hday].
Defined.

(** ** When the table can be built *)

Lemma bind_is_Ok {A B} (m : res A) (f : A -> res B) :
  is_Ok (m ≫= f) <-> exists a, m = Ok a /\ is_Ok (f a).
Proof.
  destruct m as [a|e]; simpl.
  - split; [by exists a|]. by intros (a' & [= <-] & Ha).
  - split; [by intros [b Hb]|]. by intros (a' & Ha & _).
Qed.

Lemma Ok_is_Ok {A} (a : A) : is_Ok (Ok a).
Proof. by exists a. Qed.

Lemma list_comp_is_Ok {A B} (f : A -> res B) (xs : list A) :
  is_Ok (list_comp f xs) <-> Forall (fun x => is_Ok (f x)) xs.
Proof.
  induction xs as [|x xs IH]; simpl.
  - split; [constructor|intros _; apply Ok_is_Ok].
  - rewrite list.Forall_cons, bind_is_Ok. split.
    + intros (y & Hy & Hrest). apply bind_is_Ok in Hrest as (ys & Hys & _).
      split; [by exists y|]. apply IH. by exists ys.
    + intros [[y Hy] Hxs]. apply IH in Hxs as [ys Hys].
      exists y. split; [done|]. rewrite Hys. apply Ok_is_Ok.
Qed.

Lemma row_total_is_Ok `{Runtime} now r :
  is_Ok (TaskRowData.total_hours now r)
  <-> Forall (fun d => is_Ok (DayData.total_hours now d)) (days r).
Proof.
  unfold TaskRowData.total_hours. rewrite bind_is_Ok, <-list_comp_is_Ok. split.
  - intros (hs & Hhs & _). by exists hs.
  - intros [hs Hhs]. exists hs. split; [done|apply Ok_is_Ok].
Qed.

Lemma cell_is_Ok `{Runtime} now r di :
  is_Ok (dd ← index (days r) di; DayData.total_hours now dd)
  <-> exists dd, days r !! di = Some dd /\ is_Ok (DayData.total_hours now dd).
Proof.
  rewrite bind_is_Ok. unfold index.
  destruct (days r !! di) as [dd|]; split; intros (dd' & Hdd & Hok); try done.
  - injection Hdd as <-. by exists dd.
  - injection Hdd as <-. by exists dd.
Qed.

Lemma seven_cells_is_Ok `{Runtime} now r :
  Forall (fun d => is_Ok (DayData.total_hours now d)) (days r) ->
  Forall (fun di => is_Ok (dd ← index (days r) di; DayData.total_hours now dd)) (seq 0 7)
  <-> (7 <= length (days r))%nat.
Proof.
  intros Hdays. rewrite list.Forall_forall. split.
  - intros Hcells. specialize (Hcells 6%nat).
    rewrite cell_is_Ok in Hcells. destruct Hcells as (dd & Hdd & _).
    + apply elem_of_seq. lia.
    + apply lookup_lt_Some in Hdd. lia.
  - intros Hlen di Hdi. apply elem_of_seq in Hdi. apply cell_is_Ok.
    destruct (lookup_lt_is_Some_2 (days r) di ltac:(lia)) as [dd Hdd].
    exists dd. split; [done|]. by eapply Forall_lookup_1 in Hdays.
Qed.

Lemma TaskCell_is_Ok t s :
  is_Ok (TaskCell t s) <-> label_text t /\ label_text s.
Proof.
  unfold TaskCell, label_text. split.
  - intros Hok. apply bind_is_Ok in Hok as ([] & Ht & Hs). split.
    + intros Htr. rewrite Htr in Ht. destruct t; try discriminate Ht. by eexists.
    + intros Htr. rewrite Htr in Hs. destruct Hs as [[] Hs].
      destruct s; try discriminate Hs. by eexists.
  - intros [Ht Hs]. apply bind_is_Ok. exists tt. split.
    + destruct (truthy t); [|done]. by destruct Ht as [x ->].
    + destruct (truthy s); [|apply Ok_is_Ok]. destruct Hs as [x ->]; [done|apply Ok_is_Ok].
Qed.

Lemma build_table_is_Ok `{Runtime} (now : datetime) (self : App) :
  is_Ok (_build_table now self)
  <-> Forall (fun r => label_text (task r) /\ label_text (subtask r)
                       /\ (7 <= length (days r))%nat
                       /\ Forall (fun d => is_Ok (DayData.total_hours now d)) (days r))
             (rows self).
Proof.
  unfold _build_table. rewrite bind_is_Ok. split.
  - intros (body & Hbody & _).
    pose proof (proj1 (list_comp_is_Ok _ _) (ex_intro _ body Hbody)) as Hok.
    eapply list.Forall_impl; [exact Hok|]. intros r Hr. simpl in Hr.
    apply bind_is_Ok in Hr as ([] & Hlabels & Hr).
    apply bind_is_Ok in Hr as (cells & Hcells & Hr).
    apply bind_is_Ok in Hr as (total & Htotal & _).
    assert (Hdays : Forall (fun d => is_Ok (DayData.total_hours now d)) (days r)).
    { apply row_total_is_Ok. by exists total. }
    assert (Hl : label_text (task r) /\ label_text (subtask r)).
    { apply TaskCell_is_Ok. by exists tt. }
    destruct Hl as [Ht Hs]. split; [done|]. split; [done|]. split; [|done].
    apply (seven_cells_is_Ok now r Hdays), list_comp_is_Ok. by exists cells.
  - intros Hrows.
    assert (Hweek : is_Ok (week_total now self)).
    { unfold week_total. apply bind_is_Ok.
      assert (Hl : is_Ok (list_comp (TaskRowData.total_hours now) (rows self))).
      { apply list_comp_is_Ok. eapply list.Forall_impl; [exact Hrows|].
        intros r (_ & _ & _ & Hr). by apply row_total_is_Ok. }
      destruct Hl as [hs Hhs]. exists hs. split; [done|apply Ok_is_Ok]. }
    assert (Hbody : is_Ok (list_comp (fun row =>
              TaskCell (task row) (subtask row);;
              cells ← list_comp (fun di => dd ← index (days row) di;
                                           DayData.total_hours now dd) (seq 0 7);
              total ← TaskRowData.total_hours now row;
              Ok (cells, total)) (rows self))).
    { apply list_comp_is_Ok. eapply list.Forall_impl; [exact Hrows|].
      intros r (Ht & Hs & Hlen & Hr). simpl. apply bind_is_Ok.
      destruct (proj2 (TaskCell_is_Ok (task r) (subtask r)) (conj Ht Hs)) as [[] Hl].
      exists tt. split; [done|]. apply bind_is_Ok.
      assert (Hc : is_Ok (list_comp (fun di => dd ← index (days r) di;
                                               DayData.total_hours now dd) (seq 0 7))).
      { apply list_comp_is_Ok. by apply seven_cells_is_Ok. }
      destruct Hc as [cells Hc]. exists cells. split; [done|].
      apply bind_is_Ok. apply row_total_is_Ok in Hr as [total Htot].
      exists total. split; [done|apply Ok_is_Ok]. }
    destruct Hbody as [body Hbody]. exists body. split; [done|].
    apply bind_is_Ok.
    assert (Htr : is_Ok (_add_total_row now self)).
    { unfold _add_total_row. destruct (rows self) as [|r0 rs0] eqn:Hrs; [apply Ok_is_Ok|].
      rewrite <-Hrs in *. apply bind_is_Ok.
      assert (Htd : is_Ok (list_comp (total_day now self) (seq 0 7))).
      { apply list_comp_is_Ok, list.Forall_forall. intros di Hdi.
        apply elem_of_seq in Hdi. unfold total_day. apply bind_is_Ok.
        assert (Hl : is_Ok (list_comp (fun r => dd ← index (days r) di;
                                                DayData.total_hours now dd) (rows self))).
        { apply list_comp_is_Ok. eapply list.Forall_impl; [exact Hrows|].
          intros r (_ & _ & Hlen & Hr). simpl.
          pose proof (proj2 (seven_cells_is_Ok now r Hr) Hlen) as Hcells.
          rewrite list.Forall_forall in Hcells. apply Hcells, elem_of_seq. lia. }
        destruct Hl as [hs Hhs]. exists hs. split; [done|apply Ok_is_Ok]. }
      destruct Htd as [tds Htd]. exists tds. split; [done|].
      apply bind_is_Ok. destruct Hweek as [wt Hwt]. exists wt. split; [done|apply Ok_is_Ok]. }
    destruct Htr as [tr Htr]. exists tr. split; [done|].
    apply bind_is_Ok. unfold _update_week_total. destruct Hweek as [wt Hwt].
    exists wt. split; [done|apply Ok_is_Ok].
Qed.

(** X15. [_build_table] returns exactly when every entry of the sheet in
    view can be shown: its task and its subtask are each a string or a value
    that counts as false (for which [TaskCell] shows its placeholder), it has
    at least seven days, and the hours of each of its days can be computed.
    Otherwise it raises: an entry with fewer than seven days, as [from_dict]
    builds one from a short ["days"] list, or with a number for a task, is
    enough. *)
Theorem build_table_returns `{Runtime} (now : datetime) (self : App) :
  is_Ok (_build_table now self)
  <-> Forall (fun r => label_text (task r) /\ label_text (subtask r)
                       /\ (7 <= length (days r))%nat
                       /\ Forall (fun d => is_Ok (DayData.total_hours now d)) (days r))
             (rows self).
Proof. apply build_table_is_Ok. Qed.

(** ** A file that cannot be loaded *)

Lemma init_failed_load emp monday f :
  f = Unreadable \/ (exists raw e, f = Document raw /\ parse_store raw = Raise e) ->
  init emp monday f = mkApp ∅ emp monday None f.
Proof.
  unfold init. rewrite load_data_unfold. cbn [snd DATA_FILE].
  intros [->|(raw & e & -> & Hraw)]; [done|]. by rewrite Hraw.
Qed.

Lemma persisted_row_new t s :
  persisted_row (TaskRowData.new (PStr t) (PStr s)) = TaskRowData.new (PStr t) (PStr s).
Proof. reflexivity. Qed.

(** X16. A file that cannot be loaded is replaced at the first save. When
    the data file exists but is not JSON, or holds a sheet that [from_dict]
    cannot build, the application starts on an empty sheet with the file
    untouched; the first task then added is saved over the file, which from
    then on holds that sheet alone: whatever the file held before is gone. *)
Theorem failed_load_then_save `{Runtime} (emp task subtask : string) (today : date)
    (now now' : datetime) (f : file_state) (app : App) :
  emp <> "" -> task <> "" ->
  f = Unreadable \/ (exists raw e, f = Document raw /\ parse_store raw = Raise e) ->
  startup emp today now f = Some app ->
  DATA_FILE app = f
  /\ data_store app = {[_data_key app := []]}
  /\ fst (_add_task task subtask now' app) = Ok Done
  /\ forall emp' monday',
       data_store (init emp' monday' (DATA_FILE (snd (_add_task task subtask now' app))))
       = {[_data_key app := [TaskRowData.new (PStr task) (PStr subtask)]]}.
Proof.
  intros Hemp Htask Hf Hstart. unfold startup in Hstart.
  destruct (_monday_of today) as [monday|]; [|done]. simpl in Hstart.
  injection Hstart as <-. unfold _on_employee_changed.
  rewrite (init_failed_load emp monday f Hf), load_employee_week_unfold.
  cbn [emp_combo data_store]. rewrite lookup_empty.
  apply String.eqb_neq in Hemp as ->. cbv zeta. cbn [snd].
  set (app := set_data_store _ _).
  assert (Hstore : data_store app = {[_data_key app := []]}) by done.
  split; [done|]. split; [done|].
  rewrite add_task_unfold. apply String.eqb_neq in Htask as ->. cbn [fst snd].
  assert (Hrows : rows app = []).
  { unfold rows. rewrite Hstore. by rewrite lookup_singleton_eq. }
  rewrite Hrows. simpl app.
  split.
  - assert (Hok : is_Ok (_build_table now'
              (saved (set_rows ([] ++ [TaskRowData.new (PStr task) (PStr subtask)]) app)))).
    { apply build_table_is_Ok. rewrite rows_saved, rows_set_rows.
      constructor; [|constructor].
      split; [by intros _; eexists|]. split; [by intros _; eexists|].
      split; [simpl; lia|]. repeat constructor; apply Ok_is_Ok. }
    destruct Hok as [v ->]. done.
  - intros emp' monday'. rewrite data_store_init. unfold saved at 1.
    cbn [DATA_FILE set_DATA_FILE]. rewrite loaded_store_dump.
    unfold saved, set_rows. cbn [data_store set_data_store set_DATA_FILE].
    rewrite Hstore, insert_singleton_eq, map_fmap_singleton. done.
Qed.

Lemma failed_load_then_save_witness :
  let R := exact_runtime in
  let app := snd (_on_employee_changed t0900 (init "A" (mkdate 2024 6 3) file_with_broken_sheet)) in
  parse_store (PDict [("B::2024-06-03",
                       PList [PDict [("task", PStr "Meeting"); ("days", PList [])]])])
  = Raise KeyError
  /\ data_store (init "B" (mkdate 2024 6 3)
                   (DATA_FILE (snd (_add_task "Meeting" "Meeting" t0930 app))))
     = {["A::2024-06-03" := [TaskRowData.new (PStr "Meeting") (PStr "Meeting")]]}.
Proof.
  intros R app. split; [reflexivity|].
  destruct (@failed_load_then_save R "A" "Meeting" "Meeting" (date_of t0900) t0900 t0930
              file_with_broken_sheet app) as (_ & _ & _ & Hfile).
  - discriminate.
  - discriminate.
  - right. by exists (PDict [("B::2024-06-03",
                       PList [PDict [("task", PStr "Meeting"); ("days", PList [])]])]), KeyError.
  - reflexivity.
  - apply Hfile.
Defined.

(** ** Once through the file *)

Lemma pyval_nested_ind (P : pyval -> Prop) :
  P PNone -> (forall b, P (PBool b)) -> (forall n, P (PInt n)) ->
  (forall r, P (PFloat r)) -> (forall s, P (PStr s)) ->
  (forall items, Forall P items -> P (PList items)) ->
  (forall items, Forall P items -> P (PTuple items)) ->
  (forall kvs, Forall (fun kv => P (snd kv)) kvs -> P (PDict kvs)) ->
  forall v, P v.
Proof.
  intros HN HB HI HF HS HL HT HD.
  fix IH 1. intros [| | | | |items|items|kvs];
    [apply HN|apply HB|apply HI|apply HF|apply HS| | |].
  - apply HL. induction items as [|x items IHitems]; constructor; [apply IH|exact IHitems].
  - apply HT. induction items as [|x items IHitems]; constructor; [apply IH|exact IHitems].
  - apply HD. induction kvs as [|[k x] kvs IHkvs]; constructor; [apply IH|exact IHkvs].
Qed.

Lemma json_roundtrip_idemp v : json_roundtrip (json_roundtrip v) = json_roundtrip v.
Proof.
  induction v as [| | | | |items IH|items IH|kvs IH] using pyval_nested_ind; try done.
  - simpl. f_equal. rewrite map_map. apply map_ext_Forall. exact IH.
  - simpl. f_equal. rewrite map_map. apply map_ext_Forall. exact IH.
  - simpl. f_equal. rewrite map_map. apply map_ext_Forall.
    eapply list.Forall_impl; [exact IH|]. intros [k x] Hx. simpl in *. by rewrite Hx.
Qed.

Lemma persisted_row_idemp r : persisted_row (persisted_row r) = persisted_row r.
Proof.
  unfold persisted_row. cbn [task subtask days]. rewrite !json_roundtrip_idemp. f_equal.
  rewrite map_map. apply map_ext. intros d. unfold persisted_day.
  cbn [sessions notes]. by rewrite !json_roundtrip_idemp.
Qed.

(** X17. What has been through the file once is stable: a store loaded from
    a file that [_save_data] wrote comes back as it is from every further
    save and load. *)
Theorem loaded_store_is_stable (self : App) (emp emp' : string) (monday monday' : date) :
  data_store (init emp' monday'
                (DATA_FILE (snd (_save_data (init emp monday (DATA_FILE (snd (_save_data self))))))))
  = data_store (init emp monday (DATA_FILE (snd (_save_data self)))).
Proof.
  rewrite !data_store_init, !loaded_store_saved, data_store_init, loaded_store_saved.
  rewrite <-map_fmap_compose. apply map_fmap_ext. intros k rs _. simpl.
  rewrite map_map. apply map_ext. apply persisted_row_idemp.
Qed.

(** ** Another employee while a timer runs *)

Lemma data_key_set_emp_combo emp self :
  emp <> emp_combo self -> _data_key (set_emp_combo emp self) <> _data_key self.
Proof.
  intros Hne Heq. unfold _data_key in Heq. cbn [emp_combo week_start set_emp_combo] in Heq.
  by apply append_inj_same_length in Heq as [Hemp _].
Qed.

Lemma select_other_employee `{Runtime} emp now self :
  emp <> "" -> emp <> emp_combo self ->
  exists ds, snd (select_employee emp now self) = set_data_store ds (set_emp_combo emp self)
             /\ ds !! _data_key self = data_store self !! _data_key self.
Proof.
  intros Hemp Hne. rewrite select_employee_unfold.
  apply String.eqb_neq in Hne as Hne'. rewrite Hne'.
  rewrite load_employee_week_unfold. cbn [emp_combo set_emp_combo].
  apply String.eqb_neq in Hemp as ->. cbv zeta. cbn [snd].
  destruct (data_store (set_emp_combo emp self) !! _data_key (set_emp_combo emp self)).
  - exists (data_store self). split; [|done]. by destruct self.
  - eexists. split; [reflexivity|]. cbn [data_store set_emp_combo].
    rewrite lookup_insert_ne; [done|]. by apply data_key_set_emp_combo.
Qed.

(** X18. Picking another employee while a timer runs leaves the timer
    behind. The open cell stays, still open, in its sheet, which is no longer
    the one in view, and [active_timer] keeps its indices: in the sheet now
    in view every other cell answers "Active Timer" to a click, and a click
    on the cell at the same indices, if there is one and it is not running,
    is taken as a stop that closes nothing: the cell left behind is as open
    as before. *)
Theorem switch_with_running_timer `{Runtime} (self : App) (emp : string) (now : datetime)
    (ri di : nat) (dd : DayData) (t0 : datetime) :
  emp <> "" -> emp <> emp_combo self ->
  active_timer self = Some (ri, di) ->
  get_day self ri di = Some dd -> running_start dd = Some t0 ->
  active_timer (snd (select_employee emp now self)) = Some (ri, di)
  /\ _data_key (snd (select_employee emp now self)) <> _data_key self
  /\ (exists rs r, data_store (snd (select_employee emp now self)) !! _data_key self = Some rs
                   /\ rs !! ri = Some r /\ days r !! di = Some dd)
  /\ (forall ri' di' today now',
        (ri', di') <> (ri, di) ->
        is_Some (get_day (snd (select_employee emp now self)) ri' di') ->
        _toggle_timer ri' di' today now' (snd (select_employee emp now self))
        = (Ok TimerBusyError, snd (select_employee emp now self)))
  /\ (forall dd' today now',
        get_day (snd (select_employee emp now self)) ri di = Some dd' ->
        running_start dd' = None ->
        data_store (snd (_toggle_timer ri di today now' (snd (select_employee emp now self))))
        = data_store (snd (select_employee emp now self))
        /\ (is_Ok (DayData.total_hours now' dd') ->
            active_timer (snd (_toggle_timer ri di today now'
                                 (snd (select_employee emp now self)))) = None)).
Proof.
  intros Hemp Hne Hact Hdd Hrun.
  destruct (select_other_employee emp now self Hemp Hne) as (ds & -> & Hds).
  split; [done|]. split; [by apply data_key_set_emp_combo|]. split.
  - cbn [data_store set_data_store]. rewrite Hds.
    unfold get_day, rows in Hdd.
    destruct (data_store self !! _data_key self) as [rs|]; [|done]. simpl in Hdd.
    destruct (rs !! ri) as [r|] eqn:Hr; [|done]. simpl in Hdd.
    by exists rs, r.
  - set (s' := set_data_store ds (set_emp_combo emp self)). split.
    + intros ri' di' today now' Hother [dd' Hdd'].
      rewrite toggle_timer_unfold, Hdd'.
      change (active_timer s') with (active_timer self). rewrite Hact.
      rewrite decide_False; [done|]. intros [= -> ->]. done.
    + intros dd' today now' Hdd' Hrun'.
      rewrite toggle_timer_unfold, Hdd'.
      change (active_timer s') with (active_timer self). rewrite Hact.
      rewrite decide_True by done.
      rewrite stop_timer_unfold, Hdd', Hrun'.
      destruct (stop_finish now' dd' s') as [r s''] eqn:E.
      pose proof (stop_finish_effect now' dd' s' r s'' E) as (_ & Hstore & _).
      assert (Hsnd : snd (match r with
                          | Ok _ => (Ok Stopped, s'')
                          | Raise e => (Raise e, s'')
                          end) = s'') by (by destruct r).
      rewrite Hsnd. split; [done|].
      intros [h Hh]. unfold stop_finish in E. rewrite Hh in E. cbv zeta in E.
      by injection E as _ <-.
Qed.

Lemma switch_with_running_timer_witness :
  let R := exact_runtime in
  let self := run [click_monday_0900] scenario_app in
  let there := snd (select_employee "B" t0930 self) in
  active_timer there = Some (0, 0)%nat
  /\ open_timers there = []
  /\ _data_key there <> _data_key self.
Proof.
  intros R self there.
  destruct (@switch_with_running_timer R self "B" t0930 0 0
              (DayData.set_running_start (Some t0900) DayData.new) t0900)
    as (Hact & Hkey & _); try reflexivity; try discriminate.
  split; [exact Hact|]. split; [reflexivity|exact Hkey].
Defined.

(** ** What [from_dict] accepts *)

Lemma day_from_dict_is_Ok x : is_Ok (DayData.from_dict x) <-> exists kvs, x = PDict kvs.
Proof.
  split.
  - intros [dd Hdd]. destruct x; try discriminate Hdd. by eexists.
  - intros [kvs ->]. apply Ok_is_Ok.
Qed.

Lemma list_comp_length {A B} (f : A -> res B) xs ys :
  list_comp f xs = Ok ys -> length ys = length xs.
Proof.
  revert ys. induction xs as [|x xs IH]; intros ys; simpl.
  - by intros [= <-].
  - destruct (f x) as [y|]; [|done]. simpl.
    destruct (list_comp f xs) as [ys'|]; [|done]. simpl.
    intros [= <-]. simpl. by rewrite (IH ys').
Qed.

(** X19. [TaskRowData.from_dict] builds an entry exactly from a dict that
    has a ["task"] and a ["subtask"] and whose ["days"], an empty list when
    the key is missing, can be iterated and yields dicts only; anything else
    raises. The entry built has one day per item of ["days"], whatever their
    number. *)
Theorem row_from_dict_accepts (d : pyval) :
  (is_Ok (TaskRowData.from_dict d)
   <-> exists kvs items,
         d = PDict kvs /\ is_Some (assoc "task" kvs) /\ is_Some (assoc "subtask" kvs)
         /\ iter (default (PList []) (assoc "days" kvs)) = Ok items
         /\ Forall (fun x => exists kvs', x = PDict kvs') items)
  /\ (forall r kvs items,
        TaskRowData.from_dict d = Ok r -> d = PDict kvs ->
        iter (default (PList []) (assoc "days" kvs)) = Ok items ->
        length (days r) = length items).
Proof.
  split.
  - split.
    + intros Hok. destruct d as [| | | | | | |kvs]; try (by destruct Hok).
      unfold TaskRowData.from_dict in Hok. simpl in Hok.
      destruct (assoc "task" kvs) as [t|] eqn:Ht; [|by destruct Hok].
      destruct (assoc "subtask" kvs) as [s|] eqn:Hs; [|by destruct Hok]. simpl in Hok.
      apply bind_is_Ok in Hok as (items & Hitems & Hok).
      apply bind_is_Ok in Hok as (ds & Hds & _).
      exists kvs, items. split; [done|]. split; [by exists t|]. split; [by exists s|].
      split; [done|].
      assert (Hall : is_Ok (list_comp DayData.from_dict items)) by (by exists ds).
      apply list_comp_is_Ok in Hall.
      eapply list.Forall_impl; [exact Hall|]. intros x. apply day_from_dict_is_Ok.
    + intros (kvs & items & -> & [t Ht] & [s Hs] & Hitems & Hall).
      unfold TaskRowData.from_dict. simpl. rewrite Ht, Hs. simpl. rewrite Hitems. simpl.
      assert (Hds : is_Ok (list_comp DayData.from_dict items)).
      { apply list_comp_is_Ok. eapply list.Forall_impl; [exact Hall|].
        intros x. apply day_from_dict_is_Ok. }
      destruct Hds as [ds ->]. apply Ok_is_Ok.
  - intros r kvs items Hr -> Hitems.
    unfold TaskRowData.from_dict in Hr. simpl in Hr.
    destruct (assoc "task" kvs) as [t|]; [|done].
    destruct (assoc "subtask" kvs) as [s|]; [|done]. simpl in Hr.
    rewrite Hitems in Hr. simpl in Hr.
    destruct (list_comp DayData.from_dict items) as [ds|] eqn:Hds; [|done].
    injection Hr as <-. simpl. by apply list_comp_length in Hds.
Qed.
